(** * Beverage factory (boisson.py, usine.py): shallow embedding and properties

    The development follows the two Python modules class by class; every
    Python class is a Rocq [Module] holding a record [t] for the instance
    attributes and one definition per method, named as in the source.

    Modelling conventions.
    - A Python [float] is modelled twice.  The classes of the two Python
      modules carry exact rationals ([Q], no rounding, no NaN, no
      infinity); the properties stated on them are those of the control
      flow, of the structure of the objects and of sign, which rounding does
      not alter.  The module [Flottant] models the same quantities as the
      binary64 numbers of the machine ([PrimFloat.float], with NaN,
      infinities and rounding to nearest) for the methods whose properties
      depend on what a comparison answers on NaN or on the rounding of a
      result: the stock, the consumption loop and the cost of a water.
    - A Python [int] given by the caller is a [Z]; a [len(...)] or a counter
      is a [nat].
    - A [str] is a [string] holding the UTF-8 bytes of the text.
    - A [dict] from names to numbers is a [gmap string _]; [k in d] is
      [contient], the subscript [d[k]] is [element] and raises [KeyError]
      on a missing key, as Python does.
    - Methods that can raise return a [Resultat]; the mutated objects are
      passed in and returned explicitly (the receiver [self] first).
    - [datetime.now()] reads a clock [Horloge], an unconstrained stream of
      readings that is threaded through the methods that consult it.
    - [print] calls write to the console only and are omitted.
    - Objects are held by value.  The one alias that the methods create
      themselves (the current beverage of a line is the beverage that then
      receives its lot) is followed in [demarrer_production].  What a call
      of [produire_boisson] does to the lines and to the daily output is
      stated on positions, last elements and lengths, which do not depend
      on whether one line or one beverage is listed twice.

    Vocabulary of the specification against the source:
    Factory = [Usine], ProductionLine = [LigneProduction],
    ProductionProcess = [ProcessusProduction], ProductionStep =
    [EtapeProduction], Beverage = [Boisson], Water = [Eau],
    produce = [produire_boisson], consume = [consommer_ingredient],
    addIngredient = [ajouter_ingredient], checkAvailability =
    [verifier_disponibilite], startProduction = [demarrer_production],
    finishProduction = [terminer_production], getStatistics =
    [obtenir_statistiques], daily_output = [production_journaliere]. *)

From Stdlib Require Import QArith Lqa ZArith Ascii String Floats.
From stdpp Require Import base gmap strings list fin_maps pretty.

Local Open Scope string_scope.

(** ** Python run-time: exceptions, dictionaries, strings, clock *)

Inductive Exception : Type :=
| KeyError (cle : string)
| AttributeError (attribut : string).

Inductive Resultat (A : Type) : Type :=
| Retour (a : A)
| Leve (e : Exception).
Arguments Retour {A} a.
Arguments Leve {A} e.

#[global] Instance Resultat_ret : MRet Resultat := @Retour.
#[global] Instance Resultat_bind : MBind Resultat :=
  λ A B f m, match m with Retour a => f a | Leve e => Leve e end.

(** [k in d] *)
Definition contient {V} (d : gmap string V) (k : string) : bool :=
  bool_decide (is_Some (d !! k)).

(** [d[k]] *)
Definition element {V} (d : gmap string V) (k : string) : Resultat V :=
  match d !! k with
  | Some v => Retour v
  | None => Leve (KeyError k)
  end.

(** [a >= b] and [a < b] on floats. *)
Definition ge (a b : Q) : bool := Qle_bool b a.
Definition lt (a b : Q) : bool := QMicromega.Qlt_bool a b.

(** [str.lower()] on the UTF-8 bytes: the ASCII capitals A-Z and the
    capitals of the Latin-1 supplement (the two-byte sequences C3 80 .. C3 9E,
    the multiplication sign C3 97 apart) are mapped to their small letters;
    every other byte is kept, so capitals of other alphabets are left as
    they are. *)
Fixpoint lower_octets (apres_c3 : bool) (s : string) : string :=
  match s with
  | EmptyString => EmptyString
  | String c r =>
      let n := N_of_ascii c in
      let c' :=
        if apres_c3 then
          if ((128 <=? n) && (n <=? 158) && negb (n =? 151))%N
          then ascii_of_N (n + 32) else c
        else
          if ((65 <=? n) && (n <=? 90))%N then ascii_of_N (n + 32) else c in
      String c' (lower_octets (negb apres_c3 && (n =? 195)%N) r)
  end.

Definition lower (s : string) : string := lower_octets false s.

(** [x in l] for a list of strings. *)
Definition dans (x : string) (l : list string) : bool := bool_decide (x ∈ l).

Module datetime.
Record t : Type := {
  year : N; month : N; day : N;
  hour : N; minute : N; second : N; microsecond : N
}.

(** Decimal rendering on at least [largeur] digits, zero-padded. *)
Definition chiffres (largeur : nat) (n : N) : string :=
  let s := pretty n in
  String.concat "" (replicate (largeur - String.length s) "0") +:+ s.

(** [strftime('%Y%m%d%H%M%S')] *)
Definition strftime_AmjHMS (d : t) : string :=
  chiffres 4 (year d) +:+ chiffres 2 (month d) +:+ chiffres 2 (day d) +:+
  chiffres 2 (hour d) +:+ chiffres 2 (minute d) +:+ chiffres 2 (second d).
End datetime.

(** The clock: the readings that the coming calls of [datetime.now()] will
    return, in order. *)
Definition Horloge : Type := nat → datetime.t.

Definition now (h : Horloge) : datetime.t * Horloge :=
  (h 0%nat, λ n, h (S n)).

(** ** boisson.py *)

Module Ingredient.
Record t : Type := {
  nom : string;
  quantite : Q;
  unite : string
}.

(** [Ingredient(nom, quantite)] with the default unit. *)
Definition creer (nom : string) (quantite : Q) : t :=
  {| nom := nom; quantite := quantite; unite := "L" |}.
End Ingredient.

Module Boisson.
(** The concrete subclasses with the attribute each one adds. *)
Inductive classe : Type :=
| Eau (est_gazeuse : bool)
| Jus (pourcentage_fruits : Q)
| Soda (taux_sucre : Q)
| BoissonEnergisante (taux_cafeine : Q).

Record t : Type := {
  nom : string;
  volume : Q;
  ingredients : list Ingredient.t;
  date_production : option datetime.t;
  numero_lot : option string;
  sorte : classe
}.

(** [Boisson.__init__], reached through the subclass constructors. *)
Definition creer (c : classe) (nom : string) (volume : Q)
    (ingredients : list Ingredient.t) : t :=
  {| nom := nom; volume := volume; ingredients := ingredients;
     date_production := None; numero_lot := None; sorte := c |}.

(** [self.__class__.__name__] *)
Definition nom_classe (self : t) : string :=
  match sorte self with
  | Eau _ => "Eau"
  | Jus _ => "Jus"
  | Soda _ => "Soda"
  | BoissonEnergisante _ => "BoissonEnergisante"
  end.

Definition definir_lot (self : t) (numero_lot : string) (h : Horloge)
    : t * Horloge :=
  let '(maintenant, h) := now h in
  ({| nom := nom self; volume := volume self;
      ingredients := ingredients self;
      date_production := Some maintenant;
      numero_lot := Some numero_lot;
      sorte := sorte self |}, h).
End Boisson.

Module Eau.
(** [Eau(nom, volume, ingredients, est_gazeuse)] *)
Definition creer (nom : string) (volume : Q)
    (ingredients : list Ingredient.t) (est_gazeuse : bool) : Boisson.t :=
  Boisson.creer (Boisson.Eau est_gazeuse) nom volume ingredients.

Definition ingredients_valides : list string := ["eau"; "minéraux"; "co2"].

Fixpoint valider_boucle (ingredients : list Ingredient.t) : bool :=
  match ingredients with
  | [] => true
  | ingredient :: reste =>
      if negb (dans (lower (Ingredient.nom ingredient)) ingredients_valides)
      then false
      else valider_boucle reste
  end.

Definition valider_ingredients (self : Boisson.t) : bool :=
  valider_boucle (Boisson.ingredients self).
End Eau.

(** [motif in s] on strings: [motif] occurs in [s] as a contiguous run. *)
Fixpoint commence_par (motif s : string) : bool :=
  match motif, s with
  | EmptyString, _ => true
  | String _ _, EmptyString => false
  | String c motif', String d s' =>
      if Ascii.eqb c d then commence_par motif' s' else false
  end.

Fixpoint sous_chaine (motif s : string) : bool :=
  if commence_par motif s then true
  else match s with
       | EmptyString => false
       | String _ s' => sous_chaine motif s'
       end.

Module Jus.
(** [Jus(nom, volume, ingredients, pourcentage_fruits)] *)
Definition creer (nom : string) (volume : Q)
    (ingredients : list Ingredient.t) (pourcentage_fruits : Q) : Boisson.t :=
  Boisson.creer (Boisson.Jus pourcentage_fruits) nom volume ingredients.

Definition fruits : list string :=
  ["pomme"; "orange"; "raisin"; "ananas"; "mangue"].

Definition valider_ingredients (self : Boisson.t) : bool :=
  existsb (λ ing,
             sous_chaine "fruit" (lower (Ingredient.nom ing)) ||
             existsb (λ fruit, sous_chaine fruit (lower (Ingredient.nom ing)))
                     fruits)
          (Boisson.ingredients self).
End Jus.

Module Soda.
(** [Soda(nom, volume, ingredients, taux_sucre)] *)
Definition creer (nom : string) (volume : Q)
    (ingredients : list Ingredient.t) (taux_sucre : Q) : Boisson.t :=
  Boisson.creer (Boisson.Soda taux_sucre) nom volume ingredients.

Definition ingredients_requis : list string := ["eau"; "sucre"; "co2"].

Definition valider_ingredients (self : Boisson.t) : bool :=
  let ingredients_presents :=
    map (λ ing, lower (Ingredient.nom ing)) (Boisson.ingredients self) in
  forallb (λ requis,
             sous_chaine requis (String.concat " " ingredients_presents))
          ingredients_requis.
End Soda.

Module BoissonEnergisante.
(** [BoissonEnergisante(nom, volume, ingredients, taux_cafeine)] *)
Definition creer (nom : string) (volume : Q)
    (ingredients : list Ingredient.t) (taux_cafeine : Q) : Boisson.t :=
  Boisson.creer (Boisson.BoissonEnergisante taux_cafeine) nom volume
    ingredients.

Definition valider_ingredients (self : Boisson.t) : bool :=
  existsb (λ ing,
             sous_chaine "cafeine" (lower (Ingredient.nom ing)) ||
             sous_chaine "taurine" (lower (Ingredient.nom ing)) ||
             sous_chaine "guarana" (lower (Ingredient.nom ing)))
          (Boisson.ingredients self).
End BoissonEnergisante.

(** ** usine.py *)

Module Stock.
Record t : Type := {
  ingredients : gmap string Q;
  seuils_alerte : gmap string Q
}.

(** [Stock()] *)
Definition __init__ : t := {| ingredients := ∅; seuils_alerte := ∅ |}.

(** The default value of the parameter [seuil_alerte]. *)
Definition seuil_alerte_defaut : Q := 10.0.

Definition ajouter_ingredient (self : t) (nom : string) (quantite : Q)
    (seuil_alerte : Q) : Resultat t :=
  if contient (ingredients self) nom then
    v ← element (ingredients self) nom;
    mret {| ingredients := <[nom := (v + quantite)%Q]> (ingredients self);
            seuils_alerte := seuils_alerte self |}
  else
    mret {| ingredients := <[nom := quantite]> (ingredients self);
            seuils_alerte := <[nom := seuil_alerte]> (seuils_alerte self) |}.

Definition consommer_ingredient (self : t) (nom : string) (quantite : Q)
    : Resultat (bool * t) :=
  if negb (contient (ingredients self) nom) then mret (false, self)
  else
    disponible ← element (ingredients self) nom;
    if ge disponible quantite then
      v ← element (ingredients self) nom;
      mret (true,
            {| ingredients := <[nom := (v - quantite)%Q]> (ingredients self);
               seuils_alerte := seuils_alerte self |})
    else mret (false, self).

Fixpoint verifier_disponibilite (self : t)
    (ingredients_requis : list Ingredient.t) : Resultat bool :=
  match ingredients_requis with
  | [] => mret true
  | ingredient :: reste =>
      if negb (contient (ingredients self) (Ingredient.nom ingredient))
      then mret false
      else
        disponible ← element (ingredients self) (Ingredient.nom ingredient);
        if lt disponible (Ingredient.quantite ingredient) then mret false
        else verifier_disponibilite self reste
  end.
End Stock.

Module EtapeProduction.
(** The class is an extension point (docstring of [executer]: to be
    overridden in subclasses).  [surcharge = None] is an instance of the
    class itself; [Some f] stands for an instance of a subclass whose
    [executer] returns [f boisson]. *)
Record t : Type := {
  nom : string;
  duree_minutes : Z;
  description : string;
  surcharge : option (Boisson.t → bool)
}.

(** [EtapeProduction(nom, duree_minutes)] *)
Definition creer (nom : string) (duree_minutes : Z) : t :=
  {| nom := nom; duree_minutes := duree_minutes; description := "";
     surcharge := None |}.

Definition executer (self : t) (boisson : Boisson.t) : bool :=
  match surcharge self with
  | None => true
  | Some f => f boisson
  end.
End EtapeProduction.

Module ProcessusProduction.
Record t : Type := {
  nom : string;
  etapes : list EtapeProduction.t
}.

Definition calculer_duree_totale (self : t) : Z :=
  foldr (λ etape somme, (EtapeProduction.duree_minutes etape + somme)%Z)
        0%Z (etapes self).

Fixpoint executer_etapes (etapes : list EtapeProduction.t)
    (boisson : Boisson.t) : bool :=
  match etapes with
  | [] => true
  | etape :: reste =>
      if negb (EtapeProduction.executer etape boisson) then false
      else executer_etapes reste boisson
  end.

Definition executer_processus (self : t) (boisson : Boisson.t) : bool :=
  executer_etapes (etapes self) boisson.
End ProcessusProduction.

Module LigneProduction.
(** An entry of [historique_production] (a dict with these five keys). *)
Record enregistrement : Type := {
  boisson : string;
  lot : option string;
  debut : option datetime.t;
  fin : datetime.t;
  volume : Q
}.

Record t : Type := {
  nom : string;
  capacite_horaire : Z;
  processus : ProcessusProduction.t;
  est_active : bool;
  production_actuelle : option Boisson.t;
  heure_debut_production : option datetime.t;
  historique_production : list enregistrement
}.

(** [LigneProduction(nom, capacite_horaire, processus)] *)
Definition __init__ (nom : string) (capacite_horaire : Z)
    (processus : ProcessusProduction.t) : t :=
  {| nom := nom; capacite_horaire := capacite_horaire;
     processus := processus; est_active := false;
     production_actuelle := None; heure_debut_production := None;
     historique_production := [] |}.

(** Assignment to the three attributes that the methods rewrite. *)
Definition affecter (self : t) (active : bool) (actuelle : option Boisson.t)
    (debut : option datetime.t) : t :=
  {| nom := nom self; capacite_horaire := capacite_horaire self;
     processus := processus self; est_active := active;
     production_actuelle := actuelle; heure_debut_production := debut;
     historique_production := historique_production self |}.

(** [self.historique_production.append(e)] *)
Definition archiver (self : t) (e : enregistrement) : t :=
  {| nom := nom self; capacite_horaire := capacite_horaire self;
     processus := processus self; est_active := est_active self;
     production_actuelle := production_actuelle self;
     heure_debut_production := heure_debut_production self;
     historique_production := historique_production self ++ [e] |}.

(** Returns the result, the line, the beverage passed in (its lot is set
    in place) and the clock.  [production_actuelle] refers to the very
    beverage that [definir_lot] then updates, so the line holds the
    beverage with its lot. *)
Definition demarrer_production (self : t) (boisson : Boisson.t)
    (h : Horloge) : bool * t * Boisson.t * Horloge :=
  if est_active self then (false, self, boisson, h)
  else
    let '(debut, h) := now h in
    let '(instant, h) := now h in
    let numero_lot :=
      nom self +:+ "-" +:+ datetime.strftime_AmjHMS instant in
    let '(boisson, h) := Boisson.definir_lot boisson numero_lot h in
    let self := affecter self true (Some boisson) (Some debut) in
    (ProcessusProduction.executer_processus (processus self) boisson,
     self, boisson, h).

Definition terminer_production (self : t) (h : Horloge)
    : Resultat (option Boisson.t * t * Horloge) :=
  if negb (est_active self) then mret (None, self, h)
  else
    match production_actuelle self with
    | None => Leve (AttributeError "nom")
    | Some boisson_produite =>
        let '(maintenant, h) := now h in
        let self := archiver self
          {| boisson := Boisson.nom boisson_produite;
             lot := Boisson.numero_lot boisson_produite;
             debut := heure_debut_production self;
             fin := maintenant;
             volume := Boisson.volume boisson_produite |} in
        let self := affecter self false None None in
        mret (Some boisson_produite, self, h)
    end.
End LigneProduction.

Module Usine.
Record t : Type := {
  nom : string;
  lignes_production : list LigneProduction.t;
  stock : Stock.t;
  production_journaliere : list Boisson.t;
  objectifs_production : gmap string Z
}.

(** [Usine(nom)] *)
Definition __init__ (nom : string) : t :=
  {| nom := nom; lignes_production := []; stock := Stock.__init__;
     production_journaliere := []; objectifs_production := ∅ |}.

Definition avec_lignes (self : t) (lignes : list LigneProduction.t) : t :=
  {| nom := nom self; lignes_production := lignes; stock := stock self;
     production_journaliere := production_journaliere self;
     objectifs_production := objectifs_production self |}.

Definition avec_stock (self : t) (s : Stock.t) : t :=
  {| nom := nom self; lignes_production := lignes_production self;
     stock := s; production_journaliere := production_journaliere self;
     objectifs_production := objectifs_production self |}.

Definition avec_production (self : t) (p : list Boisson.t) : t :=
  {| nom := nom self; lignes_production := lignes_production self;
     stock := stock self; production_journaliere := p;
     objectifs_production := objectifs_production self |}.

Definition ajouter_ligne_production (self : t) (ligne : LigneProduction.t)
    : t :=
  avec_lignes self (lignes_production self ++ [ligne]).

Definition definir_objectif_production (self : t) (type_boisson : string)
    (quantite : Z) : t :=
  {| nom := nom self; lignes_production := lignes_production self;
     stock := stock self;
     production_journaliere := production_journaliere self;
     objectifs_production :=
       <[type_boisson := quantite]> (objectifs_production self) |}.

(** The search loop of [produire_boisson]: position and value of the
    first line that is not active. *)
Definition ligne_disponible (lignes : list LigneProduction.t)
    : option (nat * LigneProduction.t) :=
  list_find (λ ligne, LigneProduction.est_active ligne = false) lignes.

(** The consumption loop of [produire_boisson]; it stops at the first
    ingredient that cannot be consumed and keeps what was consumed. *)
Fixpoint consommer_ingredients (s : Stock.t)
    (ingredients : list Ingredient.t) : Resultat (bool * Stock.t) :=
  match ingredients with
  | [] => mret (true, s)
  | ingredient :: reste =>
      '(ok, s) ← Stock.consommer_ingredient s
                    (Ingredient.nom ingredient)
                    (Ingredient.quantite ingredient);
      if negb ok then mret (false, s)
      else consommer_ingredients s reste
  end.

(** Returns the result, the factory, the beverage passed in and the
    clock.  The chosen line is the element at position [i] of
    [lignes_production]; it is written back at that position. *)
Definition produire_boisson (self : t) (boisson : Boisson.t) (h : Horloge)
    : Resultat (bool * t * Boisson.t * Horloge) :=
  disponible ← Stock.verifier_disponibilite (stock self)
                  (Boisson.ingredients boisson);
  if negb disponible then mret (false, self, boisson, h)
  else
    match ligne_disponible (lignes_production self) with
    | None => mret (false, self, boisson, h)
    | Some (i, ligne) =>
        '(ok, s) ← consommer_ingredients (stock self)
                      (Boisson.ingredients boisson);
        let self := avec_stock self s in
        if negb ok then mret (false, self, boisson, h)
        else
          let '(demarree, ligne, boisson, h) :=
            LigneProduction.demarrer_production ligne boisson h in
          let self :=
            avec_lignes self (<[i := ligne]> (lignes_production self)) in
          if demarree then
            '(boisson_produite, ligne, h) ←
               LigneProduction.terminer_production ligne h;
            let self :=
              avec_lignes self (<[i := ligne]> (lignes_production self)) in
            match boisson_produite with
            | Some produite =>
                mret (true,
                      avec_production self
                        (production_journaliere self ++ [produite]),
                      boisson, h)
            | None => mret (false, self, boisson, h)
            end
          else mret (false, self, boisson, h)
    end.

Record statistiques : Type := {
  total_boissons_produites : nat;
  lignes_actives : nat;
  total_lignes : nat;
  types_boissons : gmap string nat
}.

(** The counting loop of [obtenir_statistiques]. *)
Definition compter_types (production : list Boisson.t) : gmap string nat :=
  foldl (λ types boisson,
           let type_boisson := Boisson.nom_classe boisson in
           <[type_boisson := (default 0 (types !! type_boisson) + 1)%nat]>
             types)
        ∅ production.

Definition obtenir_statistiques (self : t) : statistiques :=
  {| total_boissons_produites := length (production_journaliere self);
     lignes_actives :=
       length (filter (λ ligne, LigneProduction.est_active ligne = true)
                      (lignes_production self));
     total_lignes := length (lignes_production self);
     types_boissons := compter_types (production_journaliere self) |}.
End Usine.

(** ** The quantities as binary64 numbers

    The methods of [Stock], the consumption loop of [produire_boisson] and
    the cost of [Eau], with [float] quantities and the operations of the
    machine: [a >= b] and [a < b] are both [False] as soon as one side is
    NaN, and sums, differences and products are rounded. *)

Module Flottant.

(** [a >= b] and [a < b] on floats. *)
Definition ge (a b : float) : bool := PrimFloat.leb b a.
Definition lt (a b : float) : bool := PrimFloat.ltb a b.

Module Ingredient.
Record t : Type := {
  nom : string;
  quantite : float;
  unite : string
}.

(** [Ingredient(nom, quantite)] with the default unit. *)
Definition creer (nom : string) (quantite : float) : t :=
  {| nom := nom; quantite := quantite; unite := "L" |}.
End Ingredient.

Module Boisson.
Inductive classe : Type :=
| Eau (est_gazeuse : bool)
| Jus (pourcentage_fruits : float)
| Soda (taux_sucre : float)
| BoissonEnergisante (taux_cafeine : float).

Record t : Type := {
  nom : string;
  volume : float;
  ingredients : list Ingredient.t;
  date_production : option datetime.t;
  numero_lot : option string;
  sorte : classe
}.

(** [Boisson.__init__], reached through the subclass constructors. *)
Definition creer (c : classe) (nom : string) (volume : float)
    (ingredients : list Ingredient.t) : t :=
  {| nom := nom; volume := volume; ingredients := ingredients;
     date_production := None; numero_lot := None; sorte := c |}.
End Boisson.

Module Eau.
(** [Eau(nom, volume, ingredients, est_gazeuse)] *)
Definition creer (nom : string) (volume : float)
    (ingredients : list Ingredient.t) (est_gazeuse : bool) : Boisson.t :=
  Boisson.creer (Boisson.Eau est_gazeuse) nom volume ingredients.

(** [self.est_gazeuse]: only instances of [Eau] have the attribute. *)
Definition est_gazeuse (self : Boisson.t) : Resultat bool :=
  match Boisson.sorte self with
  | Boisson.Eau gazeuse => Retour gazeuse
  | _ => Leve (AttributeError "est_gazeuse")
  end.

End Eau.

Module Stock.
Record t : Type := {
  ingredients : gmap string float;
  seuils_alerte : gmap string float
}.

(** [Stock()] *)
Definition __init__ : t := {| ingredients := ∅; seuils_alerte := ∅ |}.

(** The default value of the parameter [seuil_alerte]. *)
Definition seuil_alerte_defaut : float := 10.0%float.

Definition ajouter_ingredient (self : t) (nom : string) (quantite : float)
    (seuil_alerte : float) : Resultat t :=
  if contient (ingredients self) nom then
    v ← element (ingredients self) nom;
    mret {| ingredients := <[nom := (v + quantite)%float]> (ingredients self);
            seuils_alerte := seuils_alerte self |}
  else
    mret {| ingredients := <[nom := quantite]> (ingredients self);
            seuils_alerte := <[nom := seuil_alerte]> (seuils_alerte self) |}.

Definition consommer_ingredient (self : t) (nom : string) (quantite : float)
    : Resultat (bool * t) :=
  if negb (contient (ingredients self) nom) then mret (false, self)
  else
    disponible ← element (ingredients self) nom;
    if ge disponible quantite then
      v ← element (ingredients self) nom;
      mret (true,
            {| ingredients :=
                 <[nom := (v - quantite)%float]> (ingredients self);
               seuils_alerte := seuils_alerte self |})
    else mret (false, self).

Fixpoint verifier_disponibilite (self : t)
    (ingredients_requis : list Ingredient.t) : Resultat bool :=
  match ingredients_requis with
  | [] => mret true
  | ingredient :: reste =>
      if negb (contient (ingredients self) (Ingredient.nom ingredient))
      then mret false
      else
        disponible ← element (ingredients self) (Ingredient.nom ingredient);
        if lt disponible (Ingredient.quantite ingredient) then mret false
        else verifier_disponibilite self reste
  end.
End Stock.

Module Usine.
(** The consumption loop of [produire_boisson]; it stops at the first
    ingredient that cannot be consumed and keeps what was consumed. *)
Fixpoint consommer_ingredients (s : Stock.t)
    (ingredients : list Ingredient.t) : Resultat (bool * Stock.t) :=
  match ingredients with
  | [] => mret (true, s)
  | ingredient :: reste =>
      '(ok, s) ← Stock.consommer_ingredient s
                    (Ingredient.nom ingredient)
                    (Ingredient.quantite ingredient);
      if negb ok then mret (false, s)
      else consommer_ingredients s reste
  end.
End Usine.

End Flottant.

(** ** Vocabulary of the properties *)

(** A step, a process or a line of the base design: every step is an
    instance of [EtapeProduction] itself, none overrides [executer]. *)
Module Base.
Definition etape (e : EtapeProduction.t) : Prop :=
  EtapeProduction.surcharge e = None.

Definition processus (p : ProcessusProduction.t) : Prop :=
  Forall etape (ProcessusProduction.etapes p).

Definition ligne (l : LigneProduction.t) : Prop :=
  processus (LigneProduction.processus l).
End Base.

(** Stock states reached from the empty stock by calls of
    [ajouter_ingredient], whose quantity satisfies [P], and of
    [consommer_ingredient], with any arguments. *)
Inductive atteignable (P : Q → Prop) : Stock.t → Prop :=
| atteignable_vide :
    atteignable P Stock.__init__
| atteignable_ajouter s nom quantite seuil s' :
    atteignable P s →
    P quantite →
    Stock.ajouter_ingredient s nom quantite seuil = Retour s' →
    atteignable P s'
| atteignable_consommer s nom quantite r s' :
    atteignable P s →
    Stock.consommer_ingredient s nom quantite = Retour (r, s') →
    atteignable P s'.

(** Lines reached from a new line by calls of [demarrer_production] and
    [terminer_production], with any beverage and any clock. *)
Inductive ligne_atteignable : LigneProduction.t → Prop :=
| ligne_neuve nom capacite processus :
    ligne_atteignable (LigneProduction.__init__ nom capacite processus)
| ligne_demarree l b h r l' b' h' :
    ligne_atteignable l →
    LigneProduction.demarrer_production l b h = (r, l', b', h') →
    ligne_atteignable l'
| ligne_terminee l h r l' h' :
    ligne_atteignable l →
    LigneProduction.terminer_production l h = Retour (r, l', h') →
    ligne_atteignable l'.

(** The state that the two methods maintain: an active line holds a
    beverage that bears a lot, and a start time; an idle line holds
    neither; every record of the history bears a lot and a start time. *)
Definition ligne_coherente (l : LigneProduction.t) : Prop :=
  (if LigneProduction.est_active l
   then (∃ b, LigneProduction.production_actuelle l = Some b ∧
              is_Some (Boisson.numero_lot b)) ∧
        is_Some (LigneProduction.heure_debut_production l)
   else LigneProduction.production_actuelle l = None ∧
        LigneProduction.heure_debut_production l = None) ∧
  Forall (λ e, is_Some (LigneProduction.lot e) ∧
               is_Some (LigneProduction.debut e))
         (LigneProduction.historique_production l).

(** A word without any space character. *)
Fixpoint sans_espace (mot : string) : bool :=
  match mot with
  | EmptyString => true
  | String c mot' => negb (Ascii.eqb c " "%char) && sans_espace mot'
  end.

(** The names of a list of ingredients with float quantities. *)
Definition noms_flottants (ingredients : list Flottant.Ingredient.t)
    : list string :=
  Flottant.Ingredient.nom <$> ingredients.

(** What is left of a quantity [v] stored under a name once the
    quantities that a list asks under that name are subtracted, one after
    the other in the order of the list. *)
Definition retraits (nom : string) (ingredients : list Flottant.Ingredient.t)
    (v : float) : float :=
  foldl (λ reste i,
           if decide (Flottant.Ingredient.nom i = nom)
           then (reste - Flottant.Ingredient.quantite i)%float
           else reste)
        v ingredients.

(** The number of beverages of a class in a list. *)
Definition nombre (classe : string) (production : list Boisson.t) : nat :=
  length (filter (λ b, Boisson.nom_classe b = classe) production).


(** ** Fixtures of tests.py *)

Module Essais.
(** [TestUsine.setUp] *)
Definition etape : EtapeProduction.t := EtapeProduction.creer "Test" 5.

Definition processus : ProcessusProduction.t :=
  {| ProcessusProduction.nom := "Test Process";
     ProcessusProduction.etapes := [etape] |}.

Definition ligne : LigneProduction.t :=
  LigneProduction.__init__ "Ligne Test" 100 processus.

Definition stock : Stock.t :=
  {| Stock.ingredients := {[ "eau" := 100%Q; "minéraux" := 50%Q ]};
     Stock.seuils_alerte :=
       {[ "eau" := Stock.seuil_alerte_defaut;
          "minéraux" := Stock.seuil_alerte_defaut ]} |}.

Definition usine : Usine.t :=
  Usine.avec_stock
    (Usine.ajouter_ligne_production (Usine.__init__ "Usine Test") ligne)
    stock.

(** [test_production_boisson_reussie] *)
Definition eau : Boisson.t :=
  Eau.creer "Eau Test" 1
    [Ingredient.creer "eau" 10; Ingredient.creer "minéraux" 5] false.

(** [test_production_boisson_stock_insuffisant] *)
Definition eau_trop : Boisson.t :=
  Eau.creer "Eau Test" 1 [Ingredient.creer "eau" 200] false.

(** [test_statistiques_usine] *)
Definition eau1 : Boisson.t :=
  Eau.creer "Eau 1" 1 [Ingredient.creer "eau" 5] false.

(** A clock that ticks one second per reading. *)
Definition horloge : Horloge :=
  λ n, {| datetime.year := 2024; datetime.month := 1; datetime.day := 15;
          datetime.hour := 8; datetime.minute := 30;
          datetime.second := N.of_nat n; datetime.microsecond := 0 |}.

(** A step of a subclass whose [executer] fails, and a line that runs it. *)
Definition etape_en_panne : EtapeProduction.t :=
  {| EtapeProduction.nom := "Panne"; EtapeProduction.duree_minutes := 1;
     EtapeProduction.description := "";
     EtapeProduction.surcharge := Some (λ _, false) |}.

Definition ligne_en_panne : LigneProduction.t :=
  LigneProduction.__init__ "Ligne Panne" 100
    {| ProcessusProduction.nom := "Panne";
       ProcessusProduction.etapes := [etape; etape_en_panne] |}.

(** [TestBoissons.setUp] *)
Definition ingredients_jus : list Ingredient.t :=
  [Ingredient.creer "fruits_orange" 0.8; Ingredient.creer "eau" 0.2].

Definition ingredients_soda : list Ingredient.t :=
  [Ingredient.creer "eau" 0.85; Ingredient.creer "sucre" 0.12;
   Ingredient.creer "co2" 0.03].

Definition ingredients_energie : list Ingredient.t :=
  [Ingredient.creer "eau" 0.4; Ingredient.creer "cafeine" 0.001;
   Ingredient.creer "taurine" 0.002].

(** A water that names the same ingredient twice. *)
Definition eau_double : Boisson.t :=
  Eau.creer "Eau Double" 1
    [Ingredient.creer "eau" 60; Ingredient.creer "eau" 60] false.

(** [TestStock.setUp] and [TestUsine.setUp], with float quantities. *)
Definition stock_flottant : Flottant.Stock.t :=
  {| Flottant.Stock.ingredients :=
       {[ "eau" := 100%float; "minéraux" := 50%float ]};
     Flottant.Stock.seuils_alerte :=
       {[ "eau" := Flottant.Stock.seuil_alerte_defaut;
          "minéraux" := Flottant.Stock.seuil_alerte_defaut ]} |}.
End Essais.

(** * Properties *)

(** ** Run-time helpers *)

Lemma contient_vrai {V} (d : gmap string V) k :
  contient d k = true ↔ is_Some (d !! k).
Proof. unfold contient. apply bool_decide_eq_true. Qed.

Lemma contient_Some {V} (d : gmap string V) k v :
  d !! k = Some v → contient d k = true.
Proof. intros H. apply contient_vrai. eauto. Qed.

Lemma contient_None {V} (d : gmap string V) k :
  d !! k = None → contient d k = false.
Proof.
  intros H. unfold contient. apply bool_decide_eq_false.
  rewrite H. intros [v Hv]. discriminate.
Qed.

Lemma element_Some {V} (d : gmap string V) k v :
  d !! k = Some v → element d k = Retour v.
Proof. intros H. unfold element. by rewrite H. Qed.

Lemma ge_vrai a b : ge a b = true ↔ (b <= a)%Q.
Proof. unfold ge. apply Qle_bool_iff. Qed.

Lemma ge_faux a b : ge a b = false ↔ (a < b)%Q.
Proof.
  unfold ge. split.
  - intros H. apply Qnot_le_lt. intros Hle.
    apply Qle_bool_iff in Hle. congruence.
  - intros H. destruct (Qle_bool b a) eqn:E; [|done].
    apply Qle_bool_iff in E. lra.
Qed.

Lemma lt_vrai a b : lt a b = true ↔ (a < b)%Q.
Proof. unfold lt. apply QMicromega.Qlt_bool_iff. Qed.

Lemma lt_faux a b : lt a b = false ↔ (b <= a)%Q.
Proof.
  split.
  - intros H. apply Qnot_lt_le. intros Hlt. apply lt_vrai in Hlt. congruence.
  - intros H. destruct (lt a b) eqn:E; [|done]. apply lt_vrai in E. lra.
Qed.

(** The fixture stock is what [setUp] builds by two calls of
    [ajouter_ingredient] on a fresh stock. *)
Example stock_setUp :
  (s ← Stock.ajouter_ingredient Stock.__init__ "eau" 100
         Stock.seuil_alerte_defaut;
   Stock.ajouter_ingredient s "minéraux" 50 Stock.seuil_alerte_defaut)
  = Retour Essais.stock.
Proof. vm_compute. reflexivity. Qed.

(** ** Stock *)

Section Stock_consommer.
Variables (s : Stock.t) (nom : string) (quantite : Q).

Lemma consommer_absent :
  Stock.ingredients s !! nom = None →
  Stock.consommer_ingredient s nom quantite = Retour (false, s).
Proof.
  intros H. unfold Stock.consommer_ingredient.
  by rewrite (contient_None _ _ H).
Qed.

Lemma consommer_insuffisant v :
  Stock.ingredients s !! nom = Some v → (v < quantite)%Q →
  Stock.consommer_ingredient s nom quantite = Retour (false, s).
Proof.
  intros H Hlt. unfold Stock.consommer_ingredient.
  rewrite (contient_Some _ _ _ H), (element_Some _ _ _ H). cbn.
  apply ge_faux in Hlt. by rewrite Hlt.
Qed.

Lemma consommer_suffisant v :
  Stock.ingredients s !! nom = Some v → (quantite <= v)%Q →
  Stock.consommer_ingredient s nom quantite =
    Retour (true,
            {| Stock.ingredients :=
                 <[nom := (v - quantite)%Q]> (Stock.ingredients s);
               Stock.seuils_alerte := Stock.seuils_alerte s |}).
Proof.
  intros H Hle. unfold Stock.consommer_ingredient.
  rewrite (contient_Some _ _ _ H), (element_Some _ _ _ H). cbn.
  apply ge_vrai in Hle. by rewrite Hle.
Qed.

Lemma consommer_total :
  ∃ r s', Stock.consommer_ingredient s nom quantite = Retour (r, s').
Proof.
  destruct (Stock.ingredients s !! nom) as [v|] eqn:E.
  - destruct (Qlt_le_dec v quantite) as [Hlt|Hle].
    + rewrite (consommer_insuffisant v E Hlt). eauto.
    + rewrite (consommer_suffisant v E Hle). eauto.
  - rewrite (consommer_absent E). eauto.
Qed.
End Stock_consommer.

(** Non-negative additions and arbitrary consumptions keep every quantity
    non-negative: one step of each kind. *)
Lemma ajouter_positif s nom quantite seuil s' :
  (0 <= quantite)%Q →
  (∀ k v, Stock.ingredients s !! k = Some v → (0 <= v)%Q) →
  Stock.ajouter_ingredient s nom quantite seuil = Retour s' →
  ∀ k v, Stock.ingredients s' !! k = Some v → (0 <= v)%Q.
Proof.
  intros Hq Inv Hs k v. unfold Stock.ajouter_ingredient in Hs.
  destruct (Stock.ingredients s !! nom) as [w|] eqn:E.
  - rewrite (contient_Some _ _ _ E), (element_Some _ _ _ E) in Hs.
    cbn in Hs. injection Hs as <-. cbn.
    destruct (decide (nom = k)) as [->|Hne].
    + rewrite lookup_insert_eq. intros [= <-].
      specialize (Inv _ _ E). lra.
    + rewrite lookup_insert_ne by done. apply Inv.
  - rewrite (contient_None _ _ E) in Hs. injection Hs as <-. cbn.
    destruct (decide (nom = k)) as [->|Hne].
    + rewrite lookup_insert_eq. by intros [= <-].
    + rewrite lookup_insert_ne by done. apply Inv.
Qed.

Lemma consommer_positif s nom quantite r s' :
  (∀ k v, Stock.ingredients s !! k = Some v → (0 <= v)%Q) →
  Stock.consommer_ingredient s nom quantite = Retour (r, s') →
  ∀ k v, Stock.ingredients s' !! k = Some v → (0 <= v)%Q.
Proof.
  intros Inv Hs k v.
  destruct (Stock.ingredients s !! nom) as [w|] eqn:E.
  - destruct (Qlt_le_dec w quantite) as [Hlt|Hle].
    + rewrite (consommer_insuffisant _ _ _ w E Hlt) in Hs.
      injection Hs as _ <-. apply Inv.
    + rewrite (consommer_suffisant _ _ _ w E Hle) in Hs.
      injection Hs as _ <-. cbn.
      destruct (decide (nom = k)) as [->|Hne].
      * rewrite lookup_insert_eq. intros [= <-]. lra.
      * rewrite lookup_insert_ne by done. apply Inv.
  - rewrite (consommer_absent _ _ _ E) in Hs. injection Hs as _ <-. apply Inv.
Qed.

(** C3, as stated, fails: a negative addition is accepted and recorded.
    [ajouter_ingredient("eau", -5)] on the empty stock is a reachable
    state whose quantity for "eau" is [-5]. *)
Lemma C3_contre_exemple :
  ∃ s, atteignable (λ _, True) s ∧
       Stock.ingredients s !! "eau" = Some (-5)%Q ∧
       ¬ (0 <= -5)%Q.
Proof.
  exists {| Stock.ingredients := {[ "eau" := (-5)%Q ]};
            Stock.seuils_alerte := {[ "eau" := Stock.seuil_alerte_defaut ]} |}.
  split; [|split].
  - eapply (atteignable_ajouter _ Stock.__init__ "eau" (-5)
              Stock.seuil_alerte_defaut).
    + constructor.
    + exact I.
    + reflexivity.
  - reflexivity.
  - intros H. by apply H.
Qed.

(** C3, amended. In every stock reached from the empty stock by calls of
    [ajouter_ingredient] with non-negative quantities and calls of
    [consommer_ingredient] with arbitrary quantities, every recorded
    quantity is non-negative. *)
Theorem C3_quantites_positives (s : Stock.t) :
  atteignable (λ quantite, (0 <= quantite)%Q) s →
  ∀ nom v, Stock.ingredients s !! nom = Some v → (0 <= v)%Q.
Proof.
  induction 1 as [| s nom quantite seuil s' _ IH Hq Hs
                  | s nom quantite r s' _ IH Hs].
  - intros nom v. cbn. by rewrite lookup_empty.
  - by apply (ajouter_positif s nom quantite seuil s').
  - by apply (consommer_positif s nom quantite r s').
Qed.

Lemma C3_temoin :
  atteignable (λ quantite, (0 <= quantite)%Q)
    {| Stock.ingredients := {[ "eau" := (100 - 10)%Q ]};
       Stock.seuils_alerte := {[ "eau" := Stock.seuil_alerte_defaut ]} |} ∧
  (0 <= 100 - 10)%Q.
Proof.
  assert (atteignable (λ quantite, (0 <= quantite)%Q)
            {| Stock.ingredients := {[ "eau" := (100 - 10)%Q ]};
               Stock.seuils_alerte :=
                 {[ "eau" := Stock.seuil_alerte_defaut ]} |}) as Hs.
  { eapply (atteignable_consommer _ _ "eau" 10 true).
    - eapply (atteignable_ajouter _ Stock.__init__ "eau" 100
                Stock.seuil_alerte_defaut).
      + constructor.
      + discriminate.
      + reflexivity.
    - reflexivity. }
  split; [exact Hs|].
  apply (C3_quantites_positives _ Hs "eau"). reflexivity.
Defined.

(** ** Eau *)

Lemma valider_boucle_Forall (ingredients : list Ingredient.t) :
  Eau.valider_boucle ingredients = true ↔
  Forall (λ i, lower (Ingredient.nom i) ∈ ["eau"; "minéraux"; "co2"])
         ingredients.
Proof.
  induction ingredients as [|i reste IH]; cbn.
  - split; [constructor | done].
  - unfold dans at 1.
    destruct (bool_decide_reflect
                (lower (Ingredient.nom i) ∈ Eau.ingredients_valides))
      as [Hin|Hout]; cbn.
    + rewrite IH. split.
      * intros H. by constructor.
      * by inversion 1.
    + split; [done|]. inversion 1; subst. by destruct Hout.
Qed.

(** [test_creation_eau] *)
Example test_creation_eau :
  Eau.valider_ingredients
    (Eau.creer "Eau Minérale" 1
       [Ingredient.creer "eau" 0.98; Ingredient.creer "minéraux" 0.02]
       false) = true.
Proof. vm_compute. reflexivity. Qed.

(** C4, as stated, fails: the accepted names are the three literals of the
    source; "water" and "minerals" are not among them, so a water whose
    ingredients bear these names is rejected. *)
Lemma C4_contre_exemple :
  Eau.valider_ingredients
    (Eau.creer "Eau Minérale" 1
       [Ingredient.creer "water" 0.98; Ingredient.creer "minerals" 0.02]
       false) = false.
Proof. vm_compute. reflexivity. Qed.

(** C4, amended. For a water, [valider_ingredients] returns [True] exactly
    when the lowercased name of every ingredient is one of "eau",
    "minéraux", "co2". *)
Theorem C4_valider_ingredients (b : Boisson.t) (gazeuse : bool) :
  Boisson.sorte b = Boisson.Eau gazeuse →
  (Eau.valider_ingredients b = true ↔
   Forall (λ i, lower (Ingredient.nom i) ∈ ["eau"; "minéraux"; "co2"])
          (Boisson.ingredients b)).
Proof. intros _. apply valider_boucle_Forall. Qed.

(** [test_creation_eau], with one name in capitals. *)
Lemma C4_temoin :
  Eau.valider_ingredients
    (Eau.creer "Eau Minérale" 1
       [Ingredient.creer "EAU" 0.98; Ingredient.creer "minéraux" 0.02]
       false) = true ↔
  Forall (λ i, lower (Ingredient.nom i) ∈ ["eau"; "minéraux"; "co2"])
    [Ingredient.creer "EAU" 0.98; Ingredient.creer "minéraux" 0.02].
Proof.
  apply (C4_valider_ingredients
           (Eau.creer "Eau Minérale" 1
              [Ingredient.creer "EAU" 0.98; Ingredient.creer "minéraux" 0.02]
              false) false).
  reflexivity.
Defined.

(** ** LigneProduction *)

Lemma executer_etapes_base (etapes : list EtapeProduction.t) (b : Boisson.t) :
  Forall Base.etape etapes →
  ProcessusProduction.executer_etapes etapes b = true.
Proof.
  induction 1 as [|e reste He _ IH]; cbn; [done|].
  unfold EtapeProduction.executer. rewrite He. cbn. exact IH.
Qed.

Section Ligne.
Variables (l : LigneProduction.t) (b : Boisson.t) (h : Horloge).

Lemma demarrer_active :
  LigneProduction.est_active l = true →
  LigneProduction.demarrer_production l b h = (false, l, b, h).
Proof.
  intros H. unfold LigneProduction.demarrer_production. by rewrite H.
Qed.

(** On an idle line the method always reaches the process; whatever the
    process returns, the line is then active and holds the beverage,
    which bears a lot. *)
Lemma demarrer_inactive :
  LigneProduction.est_active l = false →
  ∃ l1 b1 h1,
    LigneProduction.demarrer_production l b h =
      (ProcessusProduction.executer_processus
         (LigneProduction.processus l) b1, l1, b1, h1) ∧
    LigneProduction.est_active l1 = true ∧
    LigneProduction.production_actuelle l1 = Some b1 ∧
    LigneProduction.historique_production l1 =
      LigneProduction.historique_production l ∧
    LigneProduction.processus l1 = LigneProduction.processus l ∧
    Boisson.sorte b1 = Boisson.sorte b ∧
    Boisson.ingredients b1 = Boisson.ingredients b ∧
    is_Some (Boisson.numero_lot b1).
Proof.
  intros H. unfold LigneProduction.demarrer_production. rewrite H. cbn.
  eexists _, _, _. split; [reflexivity|]. cbn. eauto 10.
Qed.

Lemma demarrer_succes l1 b1 h1 :
  LigneProduction.demarrer_production l b h = (true, l1, b1, h1) →
  LigneProduction.est_active l = false ∧
  LigneProduction.est_active l1 = true ∧
  LigneProduction.production_actuelle l1 = Some b1 ∧
  LigneProduction.historique_production l1 =
    LigneProduction.historique_production l ∧
  is_Some (Boisson.numero_lot b1).
Proof.
  intros Hd. destruct (LigneProduction.est_active l) eqn:E.
  - rewrite (demarrer_active E) in Hd. discriminate.
  - destruct (demarrer_inactive E)
      as (l1' & b1' & h1' & Hd' & Ha & Hp & Hh & _ & _ & _ & Hl).
    rewrite Hd' in Hd. injection Hd as _ <- <- _. done.
Qed.
End Ligne.

(** Finishing an active line that holds a beverage. *)
Lemma terminer_active (l : LigneProduction.t) (b : Boisson.t) (h : Horloge) :
  LigneProduction.est_active l = true →
  LigneProduction.production_actuelle l = Some b →
  ∃ l2 h2 (e : LigneProduction.enregistrement),
    LigneProduction.terminer_production l h = Retour (Some b, l2, h2) ∧
    LigneProduction.est_active l2 = false ∧
    LigneProduction.production_actuelle l2 = None ∧
    LigneProduction.heure_debut_production l2 = None ∧
    LigneProduction.processus l2 = LigneProduction.processus l ∧
    LigneProduction.historique_production l2 =
      (LigneProduction.historique_production l ++ [e])%list ∧
    LigneProduction.lot e = Boisson.numero_lot b.
Proof.
  intros Ha Hp. unfold LigneProduction.terminer_production.
  rewrite Ha, Hp. cbn. eexists _, _, _. split; [reflexivity|]. cbn. eauto 10.
Qed.

(** C7. Whenever [demarrer_production] returns [True], the beverage bears
    a lot and the line is active; [terminer_production] then returns that
    beverage and leaves the line inactive, without a current beverage, its
    history one record longer.  On a line that is already active,
    [demarrer_production] returns [False] and changes neither the line,
    nor the beverage, nor the clock. *)
Theorem C7_cycle_ligne (l : LigneProduction.t) (b : Boisson.t) (h : Horloge) :
  (∀ l1 b1 h1,
     LigneProduction.demarrer_production l b h = (true, l1, b1, h1) →
     Boisson.numero_lot b1 ≠ None ∧
     LigneProduction.est_active l1 = true ∧
     ∃ l2 h2,
       LigneProduction.terminer_production l1 h1 = Retour (Some b1, l2, h2) ∧
       LigneProduction.est_active l2 = false ∧
       LigneProduction.production_actuelle l2 = None ∧
       length (LigneProduction.historique_production l2) =
         S (length (LigneProduction.historique_production l1)) ∧
       length (LigneProduction.historique_production l1) =
         length (LigneProduction.historique_production l)) ∧
  (LigneProduction.est_active l = true →
   LigneProduction.demarrer_production l b h = (false, l, b, h)).
Proof.
  split; [|apply demarrer_active].
  intros l1 b1 h1 Hd.
  destruct (demarrer_succes _ _ _ _ _ _ Hd) as (_ & Ha & Hp & Hh & [lot Hl]).
  split; [by rewrite Hl|]. split; [done|].
  destruct (terminer_active l1 b1 h1 Ha Hp)
    as (l2 & h2 & e & Ht & Ha2 & Hp2 & _ & _ & Hh2 & _).
  exists l2, h2. repeat (split; [done|]).
  split; [|by rewrite Hh].
  rewrite Hh2, length_app. cbn. lia.
Qed.

(** [test_demarrage_production], [test_terminer_production], and a second
    start on the line left active by the first. *)
Lemma C7_temoin :
  ∃ l1 b1 h1,
    LigneProduction.demarrer_production Essais.ligne Essais.eau
      Essais.horloge = (true, l1, b1, h1) ∧
    Boisson.numero_lot b1 = Some "Ligne Test-20240115083001" ∧
    LigneProduction.est_active l1 = true ∧
    LigneProduction.demarrer_production l1 Essais.eau1 h1 =
      (false, l1, Essais.eau1, h1) ∧
    ∃ l2 h2,
      LigneProduction.terminer_production l1 h1 = Retour (Some b1, l2, h2) ∧
      LigneProduction.est_active l2 = false ∧
      LigneProduction.production_actuelle l2 = None ∧
      length (LigneProduction.historique_production l2) = 1%nat.
Proof.
  eexists _, _, _. split; [reflexivity|].
  split; [vm_compute; reflexivity|].
  match goal with
  | |- _ ∧ LigneProduction.demarrer_production ?l1 _ ?h1 = _ ∧ _ =>
      destruct (C7_cycle_ligne Essais.ligne Essais.eau Essais.horloge)
        as [Hs _];
      destruct (Hs l1 _ h1 eq_refl) as (_ & Ha & l2 & h2 & Ht & Ha2 & Hp2 & Hn & _);
      destruct (C7_cycle_ligne l1 Essais.eau1 h1) as [_ Hr]
  end.
  split; [exact Ha|]. split; [exact (Hr Ha)|].
  exists l2, h2. repeat (split; [assumption|]). exact Hn.
Defined.

(** ** Usine *)

Lemma verifier_total (s : Stock.t) (requis : list Ingredient.t) :
  ∃ r, Stock.verifier_disponibilite s requis = Retour r.
Proof.
  induction requis as [|i reste IH]; cbn; [by eexists|].
  destruct (Stock.ingredients s !! Ingredient.nom i) as [v|] eqn:E.
  - rewrite (contient_Some _ _ _ E), (element_Some _ _ _ E). cbn.
    destruct (lt v (Ingredient.quantite i)); [by eexists | exact IH].
  - rewrite (contient_None _ _ E). cbn. by eexists.
Qed.

(** The availability check succeeds exactly when every required
    ingredient is in stock in a quantity at least the one required. *)
Lemma verifier_vrai (s : Stock.t) (requis : list Ingredient.t) :
  Stock.verifier_disponibilite s requis = Retour true ↔
  Forall (λ i, ∃ v, Stock.ingredients s !! Ingredient.nom i = Some v ∧
                    (Ingredient.quantite i <= v)%Q) requis.
Proof.
  induction requis as [|i reste IH]; cbn.
  - split; [constructor | done].
  - destruct (Stock.ingredients s !! Ingredient.nom i) as [v|] eqn:E.
    + rewrite (contient_Some _ _ _ E), (element_Some _ _ _ E). cbn.
      destruct (lt v (Ingredient.quantite i)) eqn:L.
      * apply lt_vrai in L. split; [done|].
        inversion 1 as [|? ? (w & Hw & Hle)]; subst.
        rewrite E in Hw. injection Hw as <-. lra.
      * apply lt_faux in L. rewrite IH. split.
        -- intros H. constructor; eauto.
        -- by inversion 1.
    + rewrite (contient_None _ _ E). cbn. split; [done|].
      inversion 1 as [|? ? (w & Hw & _)]; subst. congruence.
Qed.

Lemma consommer_ingredients_total (s : Stock.t) (l : list Ingredient.t) :
  ∃ r s', Usine.consommer_ingredients s l = Retour (r, s').
Proof.
  revert s. induction l as [|i reste IH]; intros s; cbn; [by eexists _, _|].
  destruct (consommer_total s (Ingredient.nom i) (Ingredient.quantite i))
    as (r & s1 & ->). cbn.
  destruct r; cbn; [apply IH | by eexists _, _].
Qed.


Lemma ligne_disponible_Some lignes i l :
  Usine.ligne_disponible lignes = Some (i, l) →
  lignes !! i = Some l ∧ LigneProduction.est_active l = false.
Proof.
  unfold Usine.ligne_disponible. intros H.
  apply list_find_Some in H as (Hi & Hl & _). done.
Qed.

Lemma ligne_disponible_None lignes :
  Forall (λ l, LigneProduction.est_active l = true) lignes →
  Usine.ligne_disponible lignes = None.
Proof.
  intros H. unfold Usine.ligne_disponible. apply list_find_None.
  eapply Forall_impl; [exact H|]. cbn. intros l Hl. congruence.
Qed.

Section Produire.
Variables (u : Usine.t) (b : Boisson.t) (h : Horloge).

Lemma produire_indisponible :
  Stock.verifier_disponibilite (Usine.stock u) (Boisson.ingredients b) =
    Retour false →
  Usine.produire_boisson u b h = Retour (false, u, b, h).
Proof. intros H. unfold Usine.produire_boisson. by rewrite H. Qed.

Lemma produire_sans_ligne :
  Usine.ligne_disponible (Usine.lignes_production u) = None →
  Usine.produire_boisson u b h = Retour (false, u, b, h).
Proof.
  intros H. unfold Usine.produire_boisson.
  destruct (verifier_total (Usine.stock u) (Boisson.ingredients b))
    as [d ->]. cbn.
  destruct d; cbn; [by rewrite H | done].
Qed.

Lemma produire_consommation_echoue i l s' :
  Stock.verifier_disponibilite (Usine.stock u) (Boisson.ingredients b) =
    Retour true →
  Usine.ligne_disponible (Usine.lignes_production u) = Some (i, l) →
  Usine.consommer_ingredients (Usine.stock u) (Boisson.ingredients b) =
    Retour (false, s') →
  Usine.produire_boisson u b h = Retour (false, Usine.avec_stock u s', b, h).
Proof.
  intros Hv Hl Hc. unfold Usine.produire_boisson.
  rewrite Hv. cbn. rewrite Hl, Hc. done.
Qed.

(** Once the ingredients are consumed, an idle line whose process
    succeeds carries the production to its end. *)
Lemma produire_demarre i l s' :
  Stock.verifier_disponibilite (Usine.stock u) (Boisson.ingredients b) =
    Retour true →
  Usine.ligne_disponible (Usine.lignes_production u) = Some (i, l) →
  Usine.consommer_ingredients (Usine.stock u) (Boisson.ingredients b) =
    Retour (true, s') →
  ∃ l1 l2 b1 h2,
    Usine.produire_boisson u b h =
      (if ProcessusProduction.executer_processus
            (LigneProduction.processus l) b1
       then Retour (true,
                    {| Usine.nom := Usine.nom u;
                       Usine.lignes_production :=
                         <[i := l2]> (Usine.lignes_production u);
                       Usine.stock := s';
                       Usine.production_journaliere :=
                         (Usine.production_journaliere u ++ [b1])%list;
                       Usine.objectifs_production :=
                         Usine.objectifs_production u |}, b1, h2)
       else Retour (false,
                    {| Usine.nom := Usine.nom u;
                       Usine.lignes_production :=
                         <[i := l1]> (Usine.lignes_production u);
                       Usine.stock := s';
                       Usine.production_journaliere :=
                         Usine.production_journaliere u;
                       Usine.objectifs_production :=
                         Usine.objectifs_production u |}, b1, h2)) ∧
    LigneProduction.est_active l1 = true ∧
    LigneProduction.est_active l2 = false ∧
    LigneProduction.processus l2 = LigneProduction.processus l ∧
    Boisson.sorte b1 = Boisson.sorte b ∧
    is_Some (Boisson.numero_lot b1).
Proof.
  intros Hv Hl Hc. unfold Usine.produire_boisson.
  rewrite Hv. cbn. rewrite Hl, Hc. cbn.
  apply ligne_disponible_Some in Hl as [_ Hi].
  destruct (demarrer_inactive l b h Hi)
    as (l1 & b1 & h1 & -> & Ha & Hp & _ & Hpr & Hs & _ & Hlot).
  destruct (terminer_active l1 b1 h1 Ha Hp)
    as (l2 & h2 & e & Ht & Ha2 & _ & _ & Hpr2 & _ & _).
  destruct (ProcessusProduction.executer_processus _ b1) eqn:E.
  - exists l1, l2, b1, h2. rewrite E. cbn. rewrite Ht. cbn.
    rewrite list_insert_insert_eq.
    repeat split; try done. congruence.
  - exists l1, l2, b1, h1. rewrite E. cbn.
    repeat split; try done. congruence.
Qed.

(** [produire_boisson] never raises. *)
Lemma produire_total :
  ∃ r u' b' h', Usine.produire_boisson u b h = Retour (r, u', b', h').
Proof.
  destruct (verifier_total (Usine.stock u) (Boisson.ingredients b))
    as [[] Hv]; [|rewrite (produire_indisponible Hv); by eexists _, _, _, _].
  destruct (Usine.ligne_disponible (Usine.lignes_production u))
    as [[i l]|] eqn:Hl;
    [|rewrite (produire_sans_ligne Hl); by eexists _, _, _, _].
  destruct (consommer_ingredients_total (Usine.stock u)
              (Boisson.ingredients b)) as ([] & s' & Hc).
  - destruct (produire_demarre i l s' Hv Hl Hc)
      as (l1 & l2 & b1 & h2 & -> & _).
    destruct (ProcessusProduction.executer_processus _ b1);
      by eexists _, _, _, _.
  - rewrite (produire_consommation_echoue i l s' Hv Hl Hc).
    by eexists _, _, _, _.
Qed.
End Produire.

(** C2. When the availability check fails for the ingredients of the
    beverage, or when every line is active, [produire_boisson] returns
    [False] and leaves the factory (stock, lines with their state and
    history, daily output), the beverage and the clock as they were. *)
Theorem C2_echec_sans_effet (u : Usine.t) (b : Boisson.t) (h : Horloge) :
  Stock.verifier_disponibilite (Usine.stock u) (Boisson.ingredients b) =
    Retour false ∨
  Forall (λ l, LigneProduction.est_active l = true)
         (Usine.lignes_production u) →
  Usine.produire_boisson u b h = Retour (false, u, b, h).
Proof.
  intros [Hv | Hl].
  - by apply produire_indisponible.
  - apply produire_sans_ligne. by apply ligne_disponible_None.
Qed.

(** [test_production_boisson_stock_insuffisant] for the first case; for
    the second, the fixture factory with its only line left active. *)
Lemma C2_temoin :
  Usine.produire_boisson Essais.usine Essais.eau_trop Essais.horloge =
    Retour (false, Essais.usine, Essais.eau_trop, Essais.horloge) ∧
  Usine.produire_boisson
    (Usine.avec_lignes Essais.usine
       [LigneProduction.affecter Essais.ligne true (Some Essais.eau1) None])
    Essais.eau Essais.horloge =
    Retour (false,
            Usine.avec_lignes Essais.usine
              [LigneProduction.affecter Essais.ligne true (Some Essais.eau1)
                 None],
            Essais.eau, Essais.horloge).
Proof.
  split.
  - apply C2_echec_sans_effet. left. reflexivity.
  - apply C2_echec_sans_effet. right. repeat constructor.
Defined.

(** C10. In the base design, when every line of the factory is idle
    before [produire_boisson], the call returns and every line is idle
    after it, whatever the result. *)
Theorem C10_lignes_inactives (u : Usine.t) (b : Boisson.t) (h : Horloge) :
  Forall Base.ligne (Usine.lignes_production u) →
  Forall (λ l, LigneProduction.est_active l = false)
         (Usine.lignes_production u) →
  ∃ r u' b' h',
    Usine.produire_boisson u b h = Retour (r, u', b', h') ∧
    Forall (λ l, LigneProduction.est_active l = false)
           (Usine.lignes_production u').
Proof.
  intros Hbase Hidle.
  destruct (verifier_total (Usine.stock u) (Boisson.ingredients b))
    as [[] Hv];
    [|rewrite (produire_indisponible _ _ _ Hv); by eexists _, _, _, _].
  destruct (Usine.ligne_disponible (Usine.lignes_production u))
    as [[i l]|] eqn:Hl;
    [|rewrite (produire_sans_ligne _ _ _ Hl); by eexists _, _, _, _].
  destruct (consommer_ingredients_total (Usine.stock u)
              (Boisson.ingredients b)) as ([] & s' & Hc);
    [|rewrite (produire_consommation_echoue _ _ _ i l s' Hv Hl Hc);
      by eexists _, _, _, _].
  destruct (produire_demarre u b h i l s' Hv Hl Hc)
    as (l1 & l2 & b1 & h2 & -> & _ & Ha2 & _).
  apply ligne_disponible_Some in Hl as [Hi _].
  rewrite Forall_lookup in Hbase. specialize (Hbase i l Hi).
  unfold ProcessusProduction.executer_processus.
  rewrite (executer_etapes_base _ b1 Hbase).
  eexists _, _, _, _. split; [reflexivity|]. cbn.
  by apply Forall_insert.
Qed.

Lemma C10_temoin :
  ∃ r u' b' h',
    Usine.produire_boisson Essais.usine Essais.eau Essais.horloge =
      Retour (r, u', b', h') ∧
    Forall (λ l, LigneProduction.est_active l = false)
           (Usine.lignes_production u').
Proof.
  apply C10_lignes_inactives.
  - repeat constructor.
  - repeat constructor.
Defined.

(** Outside the base design the hypothesis of C10 on the steps is needed:
    with a step of a subclass that fails, the line that was idle is left
    active and the ingredients stay consumed. *)
Remark ligne_bloquee :
  ∃ u' b' h',
    Usine.produire_boisson
      (Usine.avec_lignes Essais.usine [Essais.ligne_en_panne])
      Essais.eau Essais.horloge = Retour (false, u', b', h') ∧
    LigneProduction.est_active <$> Usine.lignes_production u' = [true] ∧
    Stock.ingredients (Usine.stock u') !! "eau" = Some 90%Q.
Proof.
  eexists _, _, _. split; [vm_compute; reflexivity|].
  split; reflexivity.
Qed.

(** C1. A factory whose only line is idle and whose stock is
    {eau: 100, minéraux: 50} produces a water that requires
    {eau: 10, minéraux: 5}: [produire_boisson] returns [True], the stock
    is then exactly {eau: 90, minéraux: 45} and the daily output, empty
    before, has length 1. *)
Theorem C1_production_reussie (u : Usine.t) (l : LigneProduction.t)
    (b : Boisson.t) (gazeuse : bool) (unite1 unite2 : string) (h : Horloge) :
  Usine.lignes_production u = [l] →
  LigneProduction.est_active l = false →
  Base.ligne l →
  Stock.ingredients (Usine.stock u) = {[ "eau" := 100%Q; "minéraux" := 50%Q ]} →
  Usine.production_journaliere u = [] →
  Boisson.sorte b = Boisson.Eau gazeuse →
  Boisson.ingredients b =
    [ {| Ingredient.nom := "eau"; Ingredient.quantite := 10;
         Ingredient.unite := unite1 |};
      {| Ingredient.nom := "minéraux"; Ingredient.quantite := 5;
         Ingredient.unite := unite2 |} ] →
  ∃ u' b' h',
    Usine.produire_boisson u b h = Retour (true, u', b', h') ∧
    Stock.ingredients (Usine.stock u') =
      {[ "eau" := 90%Q; "minéraux" := 45%Q ]} ∧
    length (Usine.production_journaliere u') = 1%nat.
Proof.
  intros Hlignes Hidle Hbase Hstock Hvide _ Hing.
  assert (Usine.ligne_disponible (Usine.lignes_production u) = Some (0%nat, l))
    as Hl.
  { rewrite Hlignes. unfold Usine.ligne_disponible. cbn.
    rewrite decide_True by done. reflexivity. }
  assert (Stock.verifier_disponibilite (Usine.stock u) (Boisson.ingredients b)
          = Retour true) as Hv.
  { rewrite Hing. apply verifier_vrai. rewrite Hstock.
    repeat constructor; cbn; eexists; (split; [reflexivity | discriminate]). }
  assert (∃ s', Usine.consommer_ingredients (Usine.stock u)
                  (Boisson.ingredients b) = Retour (true, s') ∧
                Stock.ingredients s' = {[ "eau" := 90%Q; "minéraux" := 45%Q ]})
    as (s' & Hc & Hs').
  { rewrite Hing. destruct (Usine.stock u) as [ings seuils].
    cbn in Hstock. subst ings. eexists. split; [vm_compute; reflexivity|].
    vm_compute. reflexivity. }
  destruct (produire_demarre u b h 0%nat l s' Hv Hl Hc)
    as (l1 & l2 & b1 & h2 & -> & _).
  unfold ProcessusProduction.executer_processus.
  rewrite (executer_etapes_base _ b1 Hbase).
  eexists _, _, _. split; [reflexivity|]. cbn.
  split; [exact Hs'|]. rewrite Hvide. reflexivity.
Qed.

(** [test_production_boisson_reussie] *)
Lemma C1_temoin :
  ∃ u' b' h',
    Usine.produire_boisson Essais.usine Essais.eau Essais.horloge =
      Retour (true, u', b', h') ∧
    Stock.ingredients (Usine.stock u') =
      {[ "eau" := 90%Q; "minéraux" := 45%Q ]} ∧
    length (Usine.production_journaliere u') = 1%nat.
Proof.
  apply (C1_production_reussie Essais.usine Essais.ligne Essais.eau false
           "L" "L").
  - reflexivity.
  - reflexivity.
  - repeat constructor.
  - reflexivity.
  - reflexivity.
  - reflexivity.
  - reflexivity.
Defined.






(** * Further properties of the code *)

(** ** Stock *)

Lemma ajouter_present s nom quantite seuil v :
  Stock.ingredients s !! nom = Some v →
  Stock.ajouter_ingredient s nom quantite seuil =
    Retour {| Stock.ingredients :=
                <[nom := (v + quantite)%Q]> (Stock.ingredients s);
              Stock.seuils_alerte := Stock.seuils_alerte s |}.
Proof.
  intros H. unfold Stock.ajouter_ingredient.
  by rewrite (contient_Some _ _ _ H), (element_Some _ _ _ H).
Qed.

Lemma ajouter_absent s nom quantite seuil :
  Stock.ingredients s !! nom = None →
  Stock.ajouter_ingredient s nom quantite seuil =
    Retour {| Stock.ingredients := <[nom := quantite]> (Stock.ingredients s);
              Stock.seuils_alerte :=
                <[nom := seuil]> (Stock.seuils_alerte s) |}.
Proof.
  intros H. unfold Stock.ajouter_ingredient.
  by rewrite (contient_None _ _ H).
Qed.

(** What a call of [consommer_ingredient] that returned [True] did. *)
Lemma consommer_vrai s nom quantite s' :
  Stock.consommer_ingredient s nom quantite = Retour (true, s') →
  ∃ v, Stock.ingredients s !! nom = Some v ∧ (quantite <= v)%Q ∧
       s' = {| Stock.ingredients :=
                 <[nom := (v - quantite)%Q]> (Stock.ingredients s);
               Stock.seuils_alerte := Stock.seuils_alerte s |}.
Proof.
  intros H. destruct (Stock.ingredients s !! nom) as [v|] eqn:E.
  - destruct (Qlt_le_dec v quantite) as [Hlt|Hle].
    + rewrite (consommer_insuffisant _ _ _ v E Hlt) in H. discriminate.
    + rewrite (consommer_suffisant _ _ _ v E Hle) in H.
      injection H as <-. eauto.
  - rewrite (consommer_absent _ _ _ E) in H. discriminate.
Qed.

(** What a call of [consommer_ingredient] that returned [False] did. *)
Lemma consommer_faux s nom quantite s' :
  Stock.consommer_ingredient s nom quantite = Retour (false, s') → s' = s.
Proof.
  intros H. destruct (Stock.ingredients s !! nom) as [v|] eqn:E.
  - destruct (Qlt_le_dec v quantite) as [Hlt|Hle].
    + rewrite (consommer_insuffisant _ _ _ v E Hlt) in H. by injection H.
    + rewrite (consommer_suffisant _ _ _ v E Hle) in H. discriminate.
  - rewrite (consommer_absent _ _ _ E) in H. by injection H.
Qed.

(** X2. [ajouter_ingredient] never raises.  For a name already in stock
    it adds the quantity to the stored one and keeps every alert threshold,
    the one passed being ignored; for a new name it records the quantity
    and the threshold.  No other name is touched. *)
Theorem X2_ajouter_ingredient (s : Stock.t) (nom : string)
    (quantite seuil : Q) :
  ∃ s',
    Stock.ajouter_ingredient s nom quantite seuil = Retour s' ∧
    (∀ v, Stock.ingredients s !! nom = Some v →
          Stock.ingredients s' !! nom = Some (v + quantite)%Q ∧
          Stock.seuils_alerte s' = Stock.seuils_alerte s) ∧
    (Stock.ingredients s !! nom = None →
     Stock.ingredients s' !! nom = Some quantite ∧
     Stock.seuils_alerte s' !! nom = Some seuil) ∧
    (∀ k, k ≠ nom →
          Stock.ingredients s' !! k = Stock.ingredients s !! k ∧
          Stock.seuils_alerte s' !! k = Stock.seuils_alerte s !! k).
Proof.
  destruct (Stock.ingredients s !! nom) as [v|] eqn:E.
  - eexists. split; [by apply ajouter_present|]. cbn. split; [|split].
    + intros w [= <-]. by rewrite lookup_insert_eq.
    + discriminate.
    + intros k Hk. by rewrite lookup_insert_ne.
  - eexists. split; [by apply ajouter_absent|]. cbn. split; [|split].
    + discriminate.
    + intros _. by rewrite !lookup_insert_eq.
    + intros k Hk. by rewrite !lookup_insert_ne.
Qed.

(** X3. In every stock reached from the empty one by calls of
    [ajouter_ingredient] and [consommer_ingredient], the names that have
    an alert threshold are exactly the names that have a quantity. *)
Theorem X3_seuils_et_quantites (s : Stock.t) :
  atteignable (λ _, True) s →
  dom (Stock.seuils_alerte s) = dom (Stock.ingredients s).
Proof.
  induction 1 as [| s nom quantite seuil s' _ IH _ Hs
                  | s nom quantite r s' _ IH Hs].
  - cbn. by rewrite !dom_empty_L.
  - destruct (Stock.ingredients s !! nom) as [v|] eqn:E.
    + rewrite (ajouter_present _ _ _ _ v E) in Hs. injection Hs as <-. cbn.
      rewrite dom_insert_lookup_L; [done | by eexists].
    + rewrite (ajouter_absent _ _ _ _ E) in Hs. injection Hs as <-. cbn.
      rewrite !dom_insert_L. by rewrite IH.
  - destruct r.
    + apply consommer_vrai in Hs as (v & E & _ & ->). cbn.
      rewrite dom_insert_lookup_L; [done | by eexists].
    + apply consommer_faux in Hs as ->. done.
Qed.

Lemma X3_temoin :
  dom (Stock.seuils_alerte Essais.stock) =
  dom (Stock.ingredients Essais.stock).
Proof.
  apply X3_seuils_et_quantites.
  eapply (atteignable_ajouter _ _ "minéraux" 50 Stock.seuil_alerte_defaut).
  - eapply (atteignable_ajouter _ Stock.__init__ "eau" 100
              Stock.seuil_alerte_defaut).
    + constructor.
    + exact I.
    + reflexivity.
  - exact I.
  - reflexivity.
Defined.

(** The consumption loop keeps the alert thresholds, whatever it
    returns. *)
Lemma consommer_ingredients_seuils (s : Stock.t) (l : list Ingredient.t) r s' :
  Usine.consommer_ingredients s l = Retour (r, s') →
  Stock.seuils_alerte s' = Stock.seuils_alerte s ∧
  dom (Stock.ingredients s') = dom (Stock.ingredients s).
Proof.
  revert s. induction l as [|i reste IH]; intros s; cbn.
  - by intros [= _ <-].
  - destruct (consommer_total s (Ingredient.nom i) (Ingredient.quantite i))
      as (ok & s1 & Hc). rewrite Hc. cbn. destruct ok; cbn.
    + intros H. apply IH in H as [-> ->].
      apply consommer_vrai in Hc as (v & E & _ & ->). cbn.
      split; [done|]. rewrite dom_insert_lookup_L; [done | by eexists].
    + intros [= _ <-]. by apply consommer_faux in Hc as ->.
Qed.

(** ** ProcessusProduction *)

(** X6. [executer_processus] returns [True] exactly when the [executer]
    of every step returns [True] on the beverage; with steps of the class
    [EtapeProduction] itself it always returns [True]. *)
Theorem X6_executer_processus (p : ProcessusProduction.t) (b : Boisson.t) :
  (ProcessusProduction.executer_processus p b = true ↔
   Forall (λ e, EtapeProduction.executer e b = true)
          (ProcessusProduction.etapes p)) ∧
  (Base.processus p → ProcessusProduction.executer_processus p b = true).
Proof.
  split; [|apply executer_etapes_base].
  unfold ProcessusProduction.executer_processus.
  induction (ProcessusProduction.etapes p) as [|e reste IH]; cbn.
  - split; [constructor | done].
  - destruct (EtapeProduction.executer e b) eqn:E; cbn.
    + rewrite IH. split; [by constructor | by inversion 1].
    + split; [done|]. inversion 1; congruence.
Qed.

Lemma duree_app n1 n2 n l1 l2 :
  ProcessusProduction.calculer_duree_totale
    {| ProcessusProduction.nom := n;
       ProcessusProduction.etapes := l1 ++ l2 |} =
  (ProcessusProduction.calculer_duree_totale
     {| ProcessusProduction.nom := n1; ProcessusProduction.etapes := l1 |} +
   ProcessusProduction.calculer_duree_totale
     {| ProcessusProduction.nom := n2; ProcessusProduction.etapes := l2 |})%Z.
Proof.
  unfold ProcessusProduction.calculer_duree_totale. cbn.
  induction l1 as [|e l1 IH]; cbn; [done|]. rewrite IH. lia.
Qed.

(** X7. The total duration of a process is additive over the
    concatenation of step lists, does not depend on the order of the
    steps, and is not negative when no step has a negative duration. *)
Theorem X7_calculer_duree_totale (n1 n2 n : string)
    (l1 l2 : list EtapeProduction.t) :
  ProcessusProduction.calculer_duree_totale
    {| ProcessusProduction.nom := n;
       ProcessusProduction.etapes := l1 ++ l2 |} =
  (ProcessusProduction.calculer_duree_totale
     {| ProcessusProduction.nom := n1; ProcessusProduction.etapes := l1 |} +
   ProcessusProduction.calculer_duree_totale
     {| ProcessusProduction.nom := n2; ProcessusProduction.etapes := l2 |})%Z ∧
  (l1 ≡ₚ l2 →
   ProcessusProduction.calculer_duree_totale
     {| ProcessusProduction.nom := n1; ProcessusProduction.etapes := l1 |} =
   ProcessusProduction.calculer_duree_totale
     {| ProcessusProduction.nom := n2; ProcessusProduction.etapes := l2 |}) ∧
  (Forall (λ e, (0 <= EtapeProduction.duree_minutes e)%Z) l1 →
   (0 <= ProcessusProduction.calculer_duree_totale
           {| ProcessusProduction.nom := n1;
              ProcessusProduction.etapes := l1 |})%Z).
Proof.
  split; [apply duree_app|]. split.
  - unfold ProcessusProduction.calculer_duree_totale. cbn.
    induction 1 as [|e l l' _ IH|e e' l|l l' l'' _ IH1 _ IH2]; cbn.
    + done.
    + by rewrite IH.
    + lia.
    + by rewrite IH1.
  - unfold ProcessusProduction.calculer_duree_totale. cbn.
    induction 1 as [|e l He _ IH]; cbn; lia.
Qed.

(** ** LigneProduction *)

Lemma ligne_atteignable_coherente (l : LigneProduction.t) :
  ligne_atteignable l → ligne_coherente l.
Proof.
  induction 1 as [nom capacite processus
                 | l b h r l' b' h' _ IH Hd
                 | l h r l' h' _ IH Ht].
  - split; cbn; [done | constructor].
  - destruct IH as [Hetat Hhist].
    unfold LigneProduction.demarrer_production in Hd.
    destruct (LigneProduction.est_active l) eqn:E.
    + injection Hd as _ <- _ _. split; [by rewrite E | done].
    + cbn in Hd. injection Hd as _ <- _ _. split; cbn; [|done].
      split; [|by eexists]. eexists. split; [done|]. cbn. by eexists.
  - destruct IH as [Hetat Hhist].
    unfold LigneProduction.terminer_production in Ht.
    destruct (LigneProduction.est_active l) eqn:E; cbn in Ht.
    + destruct Hetat as [(b & Hb & Hlot) Hdebut]. rewrite Hb in Ht.
      cbn in Ht. injection Ht as _ <- _. split; cbn; [done|].
      apply Forall_app. split; [done|]. constructor; [|constructor].
      cbn. done.
    + injection Ht as _ <- _. split; [by rewrite E | done].
Qed.

(** X8. On every line reached from a new line through
    [demarrer_production] and [terminer_production]: an active line holds
    a beverage with a lot and has a start time, an idle line has neither,
    and every history record bears a lot and a start time.  On such a
    line [terminer_production] never raises; it returns [None] exactly
    when the line is idle, and the line is then unchanged. *)
Theorem X8_ligne_coherente (l : LigneProduction.t) (h : Horloge) :
  ligne_atteignable l →
  ligne_coherente l ∧
  ∃ r l' h',
    LigneProduction.terminer_production l h = Retour (r, l', h') ∧
    (r = None ↔ LigneProduction.est_active l = false) ∧
    (r = None → l' = l ∧ h' = h) ∧
    LigneProduction.est_active l' = false.
Proof.
  intros Hl. pose proof (ligne_atteignable_coherente l Hl) as Hc.
  split; [exact Hc|]. destruct Hc as [Hetat _].
  destruct (LigneProduction.est_active l) eqn:E.
  - destruct Hetat as [(b & Hb & _) _].
    destruct (terminer_active l b h E Hb)
      as (l2 & h2 & e & Ht & Ha2 & _).
    exists (Some b), l2, h2. split; [exact Ht|].
    split; [split; discriminate|]. split; [discriminate | exact Ha2].
  - exists None, l, h. unfold LigneProduction.terminer_production.
    rewrite E. cbn. done.
Qed.

Lemma X8_temoin :
  ligne_coherente Essais.ligne ∧
  ∃ r l' h',
    LigneProduction.terminer_production Essais.ligne Essais.horloge =
      Retour (r, l', h') ∧
    (r = None ↔ LigneProduction.est_active Essais.ligne = false) ∧
    (r = None → l' = Essais.ligne ∧ h' = Essais.horloge) ∧
    LigneProduction.est_active l' = false.
Proof.
  apply X8_ligne_coherente. apply ligne_neuve.
Defined.

(** Without that history the method can raise: a line marked active that
    holds no beverage makes [terminer_production] fail on the attribute
    access. *)
Remark terminer_leve (l : LigneProduction.t) (h : Horloge) :
  LigneProduction.est_active l = true →
  LigneProduction.production_actuelle l = None →
  LigneProduction.terminer_production l h = Leve (AttributeError "nom").
Proof.
  intros Ha Hp. unfold LigneProduction.terminer_production.
  by rewrite Ha, Hp.
Qed.

(** ** Usine *)

(** The run of [produire_boisson] once the ingredients are consumed, in
    full: the three readings of the clock by [demarrer_production], the
    lot, and, when the process succeeds, the fourth reading and the record
    added by [terminer_production]. *)
Lemma produire_detail (u : Usine.t) (b : Boisson.t) (h : Horloge) i l s' :
  Stock.verifier_disponibilite (Usine.stock u) (Boisson.ingredients b) =
    Retour true →
  Usine.ligne_disponible (Usine.lignes_production u) = Some (i, l) →
  Usine.consommer_ingredients (Usine.stock u) (Boisson.ingredients b) =
    Retour (true, s') →
  let b1 :=
    {| Boisson.nom := Boisson.nom b; Boisson.volume := Boisson.volume b;
       Boisson.ingredients := Boisson.ingredients b;
       Boisson.date_production := Some (h 2%nat);
       Boisson.numero_lot :=
         Some (LigneProduction.nom l +:+ "-" +:+
               datetime.strftime_AmjHMS (h 1%nat));
       Boisson.sorte := Boisson.sorte b |} in
  let l1 := LigneProduction.affecter l true (Some b1) (Some (h 0%nat)) in
  let e :=
    {| LigneProduction.boisson := Boisson.nom b;
       LigneProduction.lot := Boisson.numero_lot b1;
       LigneProduction.debut := Some (h 0%nat);
       LigneProduction.fin := h 3%nat;
       LigneProduction.volume := Boisson.volume b |} in
  let l2 :=
    LigneProduction.affecter (LigneProduction.archiver l1 e) false None None in
  Usine.produire_boisson u b h =
    if ProcessusProduction.executer_processus (LigneProduction.processus l) b1
    then Retour (true,
                 {| Usine.nom := Usine.nom u;
                    Usine.lignes_production :=
                      <[i := l2]> (Usine.lignes_production u);
                    Usine.stock := s';
                    Usine.production_journaliere :=
                      (Usine.production_journaliere u ++ [b1])%list;
                    Usine.objectifs_production :=
                      Usine.objectifs_production u |},
                 b1, λ n, h (S (S (S (S n)))))
    else Retour (false,
                 {| Usine.nom := Usine.nom u;
                    Usine.lignes_production :=
                      <[i := l1]> (Usine.lignes_production u);
                    Usine.stock := s';
                    Usine.production_journaliere :=
                      Usine.production_journaliere u;
                    Usine.objectifs_production :=
                      Usine.objectifs_production u |},
                 b1, λ n, h (S (S (S n)))).
Proof.
  intros Hv Hl Hc. cbn zeta. unfold Usine.produire_boisson.
  rewrite Hv. cbn. rewrite Hl, Hc. cbn.
  apply ligne_disponible_Some in Hl as [_ Hi].
  unfold LigneProduction.demarrer_production. rewrite Hi. cbn.
  destruct (ProcessusProduction.executer_processus _ _); cbn; [|done].
  by rewrite list_insert_insert_eq.
Qed.

(** The counting loop from any starting mapping: the entry of a class is
    raised by the number of beverages of that class, and is created only
    when there is one. *)
Lemma compter_depuis (production : list Boisson.t) (types : gmap string nat)
    (classe : string) :
  foldl (λ types boisson,
           let type_boisson := Boisson.nom_classe boisson in
           <[type_boisson := (default 0 (types !! type_boisson) + 1)%nat]>
             types)
        types production !! classe =
  match nombre classe production with
  | O => types !! classe
  | S _ => Some (default 0 (types !! classe) + nombre classe production)%nat
  end.
Proof.
  revert types. unfold nombre.
  induction production as [|b reste IH]; intros types; [done|].
  rewrite filter_cons. cbn [foldl]. rewrite IH. cbn zeta.
  destruct (decide (Boisson.nom_classe b = classe)) as [<-|Hne].
  - rewrite lookup_insert_eq. cbn [length default].
    destruct (length (filter _ reste)); unfold id; f_equal; lia.
  - by rewrite lookup_insert_ne.
Qed.

Lemma actives_et_inactives (lignes : list LigneProduction.t) :
  (length (filter (λ l, LigneProduction.est_active l = true) lignes) +
   length (filter (λ l, LigneProduction.est_active l = false) lignes) =
   length lignes)%nat.
Proof.
  induction lignes as [|l reste IH]; [done|].
  rewrite !filter_cons.
  destruct (LigneProduction.est_active l) eqn:E.
  - rewrite decide_True by done. rewrite decide_False by done.
    cbn [length]. lia.
  - rewrite decide_False by done. rewrite decide_True by done.
    cbn [length]. lia.
Qed.

(** X13. The statistics of any factory: the total is the length of the
    daily output; the mapping by class has, under each class name, the
    number of beverages of that class in the daily output, and no entry
    for a class without any; active and idle lines add up to the number
    of lines. *)
Theorem X13_obtenir_statistiques (u : Usine.t) :
  let stats := Usine.obtenir_statistiques u in
  Usine.total_boissons_produites stats =
    length (Usine.production_journaliere u) ∧
  (∀ classe,
     Usine.types_boissons stats !! classe =
     match nombre classe (Usine.production_journaliere u) with
     | O => None
     | S n => Some (S n)
     end) ∧
  (Usine.lignes_actives stats +
   length (filter (λ l, LigneProduction.est_active l = false)
                  (Usine.lignes_production u)) =
   Usine.total_lignes stats)%nat.
Proof.
  cbn. split; [done|]. split.
  - intros classe. unfold Usine.compter_types.
    rewrite compter_depuis, lookup_empty. cbn.
    by destruct (nombre classe (Usine.production_journaliere u)).
  - apply actives_et_inactives.
Qed.

(** X14. The production targets are stored and never consulted:
    [definir_objectif_production] records the quantity under the type,
    replacing any former one, and a call of [produire_boisson] gives the
    same result, the same beverage and the same clock with or without
    the target, the resulting factories differing by that target only. *)
Theorem X14_objectifs (u : Usine.t) (type_boisson : string) (quantite : Z)
    (b : Boisson.t) (h : Horloge) :
  Usine.objectifs_production
    (Usine.definir_objectif_production u type_boisson quantite)
    !! type_boisson = Some quantite ∧
  ∃ r u' b' h',
    Usine.produire_boisson u b h = Retour (r, u', b', h') ∧
    Usine.produire_boisson
      (Usine.definir_objectif_production u type_boisson quantite) b h =
      Retour (r, Usine.definir_objectif_production u' type_boisson quantite,
              b', h').
Proof.
  split; [cbn; by rewrite lookup_insert_eq|].
  set (u2 := Usine.definir_objectif_production u type_boisson quantite).
  destruct (verifier_total (Usine.stock u) (Boisson.ingredients b))
    as [[] Hv].
  2: { rewrite (produire_indisponible u _ _ Hv),
         (produire_indisponible u2 _ _ Hv). by eexists _, _, _, _. }
  destruct (Usine.ligne_disponible (Usine.lignes_production u))
    as [[i l]|] eqn:Hl.
  2: { rewrite (produire_sans_ligne u _ _ Hl),
         (produire_sans_ligne u2 _ _ Hl). by eexists _, _, _, _. }
  destruct (consommer_ingredients_total (Usine.stock u)
              (Boisson.ingredients b)) as ([] & s' & Hc).
  - rewrite (produire_detail u b h i l s' Hv Hl Hc),
      (produire_detail u2 b h i l s' Hv Hl Hc).
    destruct (ProcessusProduction.executer_processus _ _);
      by eexists _, _, _, _.
  - rewrite (produire_consommation_echoue u _ _ i l s' Hv Hl Hc),
      (produire_consommation_echoue u2 _ _ i l s' Hv Hl Hc).
    by eexists _, _, _, _.
Qed.

(** X15. [ajouter_ligne_production] puts the line last and checks
    nothing.  The search of [produire_boisson] still takes the line it
    took before when there was an idle one; the new line is taken, at the
    last position, only when all the others are active and it is idle. *)
Theorem X15_ajouter_ligne (u : Usine.t) (ligne : LigneProduction.t) :
  Usine.lignes_production (Usine.ajouter_ligne_production u ligne) =
    (Usine.lignes_production u ++ [ligne])%list ∧
  Usine.ligne_disponible
    (Usine.lignes_production (Usine.ajouter_ligne_production u ligne)) =
  match Usine.ligne_disponible (Usine.lignes_production u) with
  | Some choix => Some choix
  | None =>
      if LigneProduction.est_active ligne then None
      else Some (length (Usine.lignes_production u), ligne)
  end.
Proof.
  split; [done|]. cbn. unfold Usine.ligne_disponible.
  destruct (list_find _ (Usine.lignes_production u)) as [[i l]|] eqn:E.
  - by apply list_find_app_l.
  - rewrite (list_find_app_r _ _ _ E). cbn.
    destruct (LigneProduction.est_active ligne) eqn:Ea.
    + rewrite decide_False by done. done.
    + rewrite decide_True by done. cbn. repeat f_equal; lia.
Qed.

(** ** The classes of beverages *)

Lemma valider_boucle_app (l1 l2 : list Ingredient.t) :
  Eau.valider_boucle (l1 ++ l2) =
  Eau.valider_boucle l1 && Eau.valider_boucle l2.
Proof.
  induction l1 as [|i l1 IH]; cbn; [done|].
  destruct (dans _ _); cbn; [exact IH | done].
Qed.

(** X17. How validation follows the list of ingredients.  For a juice
    and for an energy drink one suitable ingredient is enough: a
    concatenation of two lists is valid exactly when one of them is, and
    the empty list is not.  For a water every ingredient must be suitable:
    a concatenation is valid exactly when both lists are, and the empty
    list is. *)
Theorem X17_validation_et_concatenation (nom : string) (volume : Q)
    (l1 l2 : list Ingredient.t) (parametre : Q) (gazeuse : bool) :
  (Jus.valider_ingredients (Jus.creer nom volume (l1 ++ l2) parametre) =
     Jus.valider_ingredients (Jus.creer nom volume l1 parametre) ||
     Jus.valider_ingredients (Jus.creer nom volume l2 parametre)) ∧
  Jus.valider_ingredients (Jus.creer nom volume [] parametre) = false ∧
  (BoissonEnergisante.valider_ingredients
     (BoissonEnergisante.creer nom volume (l1 ++ l2) parametre) =
     BoissonEnergisante.valider_ingredients
       (BoissonEnergisante.creer nom volume l1 parametre) ||
     BoissonEnergisante.valider_ingredients
       (BoissonEnergisante.creer nom volume l2 parametre)) ∧
  BoissonEnergisante.valider_ingredients
    (BoissonEnergisante.creer nom volume [] parametre) = false ∧
  (Eau.valider_ingredients (Eau.creer nom volume (l1 ++ l2) gazeuse) =
     Eau.valider_ingredients (Eau.creer nom volume l1 gazeuse) &&
     Eau.valider_ingredients (Eau.creer nom volume l2 gazeuse)) ∧
  Eau.valider_ingredients (Eau.creer nom volume [] gazeuse) = true.
Proof.
  unfold Jus.valider_ingredients, BoissonEnergisante.valider_ingredients,
    Eau.valider_ingredients. cbn [Boisson.ingredients Jus.creer
    BoissonEnergisante.creer Eau.creer Boisson.creer].
  repeat split; try done.
  - apply existsb_app.
  - apply existsb_app.
  - apply valider_boucle_app.
Qed.

Lemma commence_par_espace (mot x y : string) :
  sans_espace mot = true →
  commence_par mot (x +:+ " " +:+ y) = commence_par mot x.
Proof.
  revert x. induction mot as [|c mot IH]; intros x Hm; [by destruct x|].
  cbn in Hm. apply andb_prop in Hm as [Hc Hm].
  destruct x as [|d x].
  - change ("" +:+ " " +:+ y) with (String " " y). cbn [commence_par].
    apply negb_true_iff in Hc. by rewrite Hc.
  - change (String d x +:+ " " +:+ y) with (String d (x +:+ " " +:+ y)).
    cbn [commence_par].
    destruct (Ascii.eqb c d); [by apply IH | done].
Qed.

Lemma sous_chaine_espace (mot x y : string) :
  sans_espace mot = true →
  sous_chaine mot (x +:+ " " +:+ y) = sous_chaine mot x || sous_chaine mot y.
Proof.
  intros Hm. induction x as [|d x IH].
  - change ("" +:+ " " +:+ y) with (String " " y).
    cbn [sous_chaine].
    change (String " " y) with ("" +:+ " " +:+ y) at 1.
    rewrite (commence_par_espace mot "" y Hm).
    by destruct (commence_par mot "").
  - change (String d x +:+ " " +:+ y) with (String d (x +:+ " " +:+ y)).
    cbn [sous_chaine].
    change (String d (x +:+ " " +:+ y)) with (String d x +:+ " " +:+ y).
    rewrite (commence_par_espace mot (String d x) y Hm), IH.
    by destruct (commence_par mot (String d x)).
Qed.

(** A word without space occurs in the names joined by spaces exactly
    when it occurs in one of the names. *)
Lemma sous_chaine_join (mot : string) (l : list string) :
  sans_espace mot = true → mot ≠ "" →
  sous_chaine mot (String.concat " " l) = existsb (sous_chaine mot) l.
Proof.
  intros Hm Hne. induction l as [|x l IH].
  - cbn. by destruct mot.
  - destruct l as [|y l].
    + cbn [String.concat existsb]. by rewrite orb_false_r.
    + change (String.concat " " (x :: y :: l))
        with (x +:+ " " +:+ String.concat " " (y :: l)).
      rewrite (sous_chaine_espace _ _ _ Hm), IH. done.
Qed.

(** X18. A soda is valid exactly when each of the three words "eau",
    "sucre" and "co2" occurs in the lowercased name of some ingredient,
    not necessarily the same one and not necessarily as the whole name;
    each word is looked for in the names joined by spaces and, having no
    space, can only be found inside one name. *)
Theorem X18_soda_valide (b : Boisson.t) :
  Soda.valider_ingredients b = true ↔
  ∀ requis, requis ∈ ["eau"; "sucre"; "co2"] →
            ∃ ing, ing ∈ Boisson.ingredients b ∧
                   sous_chaine requis (lower (Ingredient.nom ing)) = true.
Proof.
  unfold Soda.valider_ingredients. cbn zeta.
  rewrite forallb_forall. unfold Soda.ingredients_requis.
  assert (∀ requis, requis ∈ ["eau"; "sucre"; "co2"] →
            sans_espace requis = true ∧ requis ≠ "") as Hmots.
  { intros requis Hin. repeat (apply elem_of_cons in Hin as [->|Hin]);
      [done..|]. by apply elem_of_nil in Hin. }
  split.
  - intros H requis Hin. destruct (Hmots requis Hin) as [Hs Hne].
    specialize (H requis (proj1 (list_elem_of_In _ _) Hin)).
    rewrite (sous_chaine_join _ _ Hs Hne) in H.
    apply existsb_exists in H as (n & Hn & Hsous).
    apply in_map_iff in Hn as (ing & <- & Hing).
    exists ing. split; [by apply list_elem_of_In | done].
  - intros H requis Hin. apply list_elem_of_In in Hin.
    destruct (Hmots requis Hin) as [Hs Hne].
    rewrite (sous_chaine_join _ _ Hs Hne).
    destruct (H requis Hin) as (ing & Hing & Hsous).
    apply existsb_exists. exists (lower (Ingredient.nom ing)).
    split; [|done]. apply in_map_iff. exists ing.
    split; [done | by apply list_elem_of_In].
Qed.

(** * Properties that depend on binary64 arithmetic *)

(** ** Comparisons of floats *)

Arguments Flottant.lt : simpl never.
Arguments Flottant.ge : simpl never.

Lemma SFcompare_antisym (x y : spec_float) :
  SFcompare y x = option_map CompOpp (SFcompare x y).
Proof.
  destruct x as [sx|sx| |sx mx ex], y as [sy|sy| |sy my ey]; cbn;
    try reflexivity; try (by destruct sx, sy); try (by destruct sx);
    try (by destruct sy).
  rewrite (Z.compare_antisym ex ey).
  pose proof (Pos.compare_cont_antisym mx my Eq) as H. cbn in H.
  rewrite <- H.
  destruct sx, sy, (ex ?= ey)%Z; cbn; try reflexivity;
    by rewrite ?CompOpp_involutive.
Qed.

Lemma SFcompare_None (x y : spec_float) :
  SFcompare x y = None → x = S754_nan ∨ y = S754_nan.
Proof. destruct x, y; cbn; try discriminate; auto. Qed.

Lemma is_nan_faux (x : float) :
  PrimFloat.is_nan x = false → Prim2SF x ≠ S754_nan.
Proof.
  unfold PrimFloat.is_nan. rewrite FloatAxioms.eqb_spec. unfold SFeqb.
  intros H E. rewrite E in H. cbn in H. discriminate.
Qed.

(** [a < b] excludes [a >= b]. *)
Lemma lt_exclut_ge (a b : float) :
  Flottant.lt a b = true → Flottant.ge a b = false.
Proof.
  unfold Flottant.lt, Flottant.ge.
  rewrite FloatAxioms.ltb_spec, FloatAxioms.leb_spec. unfold SFltb, SFleb.
  rewrite (SFcompare_antisym (Prim2SF a) (Prim2SF b)).
  destruct (SFcompare (Prim2SF a) (Prim2SF b)) as [[]|]; cbn; congruence.
Qed.

(** When neither side is NaN, [a >= b] holds as soon as [a < b] does
    not. *)
Lemma non_lt_donne_ge (a b : float) :
  PrimFloat.is_nan a = false → PrimFloat.is_nan b = false →
  Flottant.lt a b = false → Flottant.ge a b = true.
Proof.
  intros Ha Hb. apply is_nan_faux in Ha, Hb.
  unfold Flottant.lt, Flottant.ge.
  rewrite FloatAxioms.ltb_spec, FloatAxioms.leb_spec. unfold SFltb, SFleb.
  rewrite (SFcompare_antisym (Prim2SF a) (Prim2SF b)).
  destruct (SFcompare (Prim2SF a) (Prim2SF b)) as [[]|] eqn:E; cbn;
    try congruence.
  apply SFcompare_None in E as [E|E]; congruence.
Qed.

Lemma SFcompare_refl (x : spec_float) :
  x ≠ S754_nan → SFcompare x x = Some Eq.
Proof.
  destruct x as [sx|sx| |sx mx ex]; cbn; intros H; try done.
  - by destruct sx.
  - rewrite Z.compare_refl, Pos.compare_cont_refl. by destruct sx.
Qed.

Lemma is_nan_vrai (x : float) :
  PrimFloat.is_nan x = true → Prim2SF x = S754_nan.
Proof.
  unfold PrimFloat.is_nan. rewrite FloatAxioms.eqb_spec. unfold SFeqb.
  intros H. destruct (Prim2SF x) as [sx|sx| |sx mx ex] eqn:E; [..|done| ];
    rewrite SFcompare_refl in H by done; discriminate.
Qed.

(** [a >= b] is [False] as soon as one side is NaN. *)
Lemma nan_exclut_ge (a b : float) :
  PrimFloat.is_nan a = true ∨ PrimFloat.is_nan b = true →
  Flottant.ge a b = false.
Proof.
  unfold Flottant.ge. rewrite FloatAxioms.leb_spec. unfold SFleb.
  intros [H|H]; apply is_nan_vrai in H; rewrite H.
  - by destruct (Prim2SF b).
  - done.
Qed.

(** On NaN both comparisons of the code answer [False]. *)
Example comparaisons_nan :
  Flottant.lt 100 nan = false ∧ Flottant.ge 100 nan = false ∧
  Flottant.lt nan 100 = false ∧ Flottant.ge nan 100 = false.
Proof. repeat split; reflexivity. Qed.

(** ** Stock, with float quantities *)

Section Stock_flottant.
Variables (s : Flottant.Stock.t) (nom : string) (quantite : float).

Lemma consommer_flottant_absent :
  Flottant.Stock.ingredients s !! nom = None →
  Flottant.Stock.consommer_ingredient s nom quantite = Retour (false, s).
Proof.
  intros H. unfold Flottant.Stock.consommer_ingredient.
  by rewrite (contient_None _ _ H).
Qed.

Lemma consommer_flottant_refuse v :
  Flottant.Stock.ingredients s !! nom = Some v →
  Flottant.ge v quantite = false →
  Flottant.Stock.consommer_ingredient s nom quantite = Retour (false, s).
Proof.
  intros H Hge. unfold Flottant.Stock.consommer_ingredient.
  rewrite (contient_Some _ _ _ H), (element_Some _ _ _ H). cbn.
  unfold Flottant.ge in Hge |- *. by rewrite Hge.
Qed.

Lemma consommer_flottant_accepte v :
  Flottant.Stock.ingredients s !! nom = Some v →
  Flottant.ge v quantite = true →
  Flottant.Stock.consommer_ingredient s nom quantite =
    Retour (true,
            {| Flottant.Stock.ingredients :=
                 <[nom := (v - quantite)%float]>
                   (Flottant.Stock.ingredients s);
               Flottant.Stock.seuils_alerte :=
                 Flottant.Stock.seuils_alerte s |}).
Proof.
  intros H Hge. unfold Flottant.Stock.consommer_ingredient.
  rewrite (contient_Some _ _ _ H), (element_Some _ _ _ H). cbn.
  unfold Flottant.ge in Hge |- *. by rewrite Hge.
Qed.

Lemma consommer_flottant_total :
  ∃ r s',
    Flottant.Stock.consommer_ingredient s nom quantite = Retour (r, s').
Proof.
  destruct (Flottant.Stock.ingredients s !! nom) as [v|] eqn:E.
  - destruct (Flottant.ge v quantite) eqn:G.
    + rewrite (consommer_flottant_accepte v E G). eauto.
    + rewrite (consommer_flottant_refuse v E G). eauto.
  - rewrite (consommer_flottant_absent E). eauto.
Qed.

(** What a call that returned [True] did. *)
Lemma consommer_flottant_vrai s' :
  Flottant.Stock.consommer_ingredient s nom quantite = Retour (true, s') →
  ∃ v, Flottant.Stock.ingredients s !! nom = Some v ∧
       Flottant.ge v quantite = true ∧
       s' = {| Flottant.Stock.ingredients :=
                 <[nom := (v - quantite)%float]>
                   (Flottant.Stock.ingredients s);
               Flottant.Stock.seuils_alerte :=
                 Flottant.Stock.seuils_alerte s |}.
Proof.
  intros H. destruct (Flottant.Stock.ingredients s !! nom) as [v|] eqn:E.
  - destruct (Flottant.ge v quantite) eqn:G.
    + rewrite (consommer_flottant_accepte v E G) in H.
      injection H as <-. eauto.
    + rewrite (consommer_flottant_refuse v E G) in H. discriminate.
  - rewrite (consommer_flottant_absent E) in H. discriminate.
Qed.
End Stock_flottant.

(** C6, as stated, fails on NaN: with 100 of "eau" in stock, a request of
    NaN does not exceed the available amount ([100 < nan] is [False]) and
    the name is present, yet the guard [100 >= nan] is [False] too and the
    call returns [False] without any change. *)
Lemma C6_contre_exemple :
  Flottant.Stock.ingredients Essais.stock_flottant !! "eau" =
    Some 100%float ∧
  Flottant.lt 100 nan = false ∧
  Flottant.Stock.consommer_ingredient Essais.stock_flottant "eau" nan =
    Retour (false, Essais.stock_flottant).
Proof. repeat split; reflexivity. Qed.

(** C6, amended. [consommer_ingredient] never raises.  It returns [False]
    and leaves the stock as it was when the name is absent, when the
    requested quantity exceeds the available one, and when one of the two
    is NaN.  Otherwise, that is when neither is NaN and the requested
    quantity does not exceed the available one, it returns [True] and the
    named quantity becomes the rounded difference [available - requested],
    nothing else being changed. *)
Theorem C6_consommer_flottant (s : Flottant.Stock.t) (nom : string)
    (quantite : float) :
  (∃ r s',
     Flottant.Stock.consommer_ingredient s nom quantite = Retour (r, s')) ∧
  (Flottant.Stock.ingredients s !! nom = None →
   Flottant.Stock.consommer_ingredient s nom quantite = Retour (false, s)) ∧
  (∀ v, Flottant.Stock.ingredients s !! nom = Some v →
        Flottant.lt v quantite = true ∨
        PrimFloat.is_nan v = true ∨ PrimFloat.is_nan quantite = true →
        Flottant.Stock.consommer_ingredient s nom quantite =
          Retour (false, s)) ∧
  (∀ v, Flottant.Stock.ingredients s !! nom = Some v →
        PrimFloat.is_nan v = false → PrimFloat.is_nan quantite = false →
        Flottant.lt v quantite = false →
        Flottant.Stock.consommer_ingredient s nom quantite =
          Retour (true,
                  {| Flottant.Stock.ingredients :=
                       <[nom := (v - quantite)%float]>
                         (Flottant.Stock.ingredients s);
                     Flottant.Stock.seuils_alerte :=
                       Flottant.Stock.seuils_alerte s |})).
Proof.
  split; [apply consommer_flottant_total|].
  split; [apply consommer_flottant_absent|]. split.
  - intros v H [Hlt | Hnan].
    + apply (consommer_flottant_refuse _ _ _ v H). by apply lt_exclut_ge.
    + apply (consommer_flottant_refuse _ _ _ v H). by apply nan_exclut_ge.
  - intros v H Hv Hq Hlt. apply consommer_flottant_accepte; [done|].
    by apply non_lt_donne_ge.
Qed.

(** [test_consommation_ingredient]: 200 is refused, 10 leaves 90. *)
Lemma C6_temoin :
  Flottant.Stock.consommer_ingredient Essais.stock_flottant "eau" 200 =
    Retour (false, Essais.stock_flottant) ∧
  ∃ s', Flottant.Stock.consommer_ingredient Essais.stock_flottant "eau" 10 =
          Retour (true, s') ∧
        Flottant.Stock.ingredients s' !! "eau" = Some 90%float.
Proof.
  destruct (C6_consommer_flottant Essais.stock_flottant "eau" 200)
    as (_ & _ & Hk & _).
  destruct (C6_consommer_flottant Essais.stock_flottant "eau" 10)
    as (_ & _ & _ & Hs).
  split.
  - apply (Hk 100%float); [reflexivity|]. left. reflexivity.
  - eexists. split.
    + apply (Hs 100%float); reflexivity.
    + reflexivity.
Defined.

(** The difference is the rounded one: consuming 1 from 1e16 succeeds and
    leaves 1e16. *)
Example difference_arrondie :
  Flottant.Stock.consommer_ingredient
    {| Flottant.Stock.ingredients := {[ "eau" := 1e16%float ]};
       Flottant.Stock.seuils_alerte := ∅ |} "eau" 1 =
  Retour (true,
          {| Flottant.Stock.ingredients := {[ "eau" := 1e16%float ]};
             Flottant.Stock.seuils_alerte := ∅ |}).
Proof. vm_compute. reflexivity. Qed.

(** C9, as stated, fails on a stock whose quantity is below the requested
    (negative) amount: after [ajouter_ingredient("eau", -5)] on a fresh
    stock, [consommer_ingredient("eau", -1)] returns [False] and changes
    nothing. *)
Lemma C9_contre_exemple :
  ∃ s, Flottant.Stock.ajouter_ingredient Flottant.Stock.__init__ "eau" (-5)
         Flottant.Stock.seuil_alerte_defaut = Retour s ∧
       Flottant.Stock.ingredients s !! "eau" = Some (-5)%float ∧
       Flottant.ge 0 (-1) = true ∧
       Flottant.Stock.consommer_ingredient s "eau" (-1) = Retour (false, s).
Proof.
  eexists. split; [reflexivity|]. repeat split; reflexivity.
Qed.

(** C9, amended. When the stock holds [v] for the name, [q <= 0] and the
    guard [v >= q] holds, [consommer_ingredient] returns [True] and
    replaces [v] by the rounded difference [v - q]. *)
Theorem C9_consommer_negatif_flottant (s : Flottant.Stock.t) (nom : string)
    (v q : float) :
  Flottant.Stock.ingredients s !! nom = Some v →
  Flottant.ge 0 q = true →
  Flottant.ge v q = true →
  Flottant.Stock.consommer_ingredient s nom q =
    Retour (true,
            {| Flottant.Stock.ingredients :=
                 <[nom := (v - q)%float]> (Flottant.Stock.ingredients s);
               Flottant.Stock.seuils_alerte :=
                 Flottant.Stock.seuils_alerte s |}).
Proof. intros H _ Hv. by apply consommer_flottant_accepte. Qed.

(** Consuming -3 from 100 leaves 103. *)
Lemma C9_temoin :
  ∃ s', Flottant.Stock.consommer_ingredient Essais.stock_flottant "eau" (-3) =
          Retour (true, s') ∧
        Flottant.Stock.ingredients s' !! "eau" = Some 103%float.
Proof.
  eexists. split.
  - apply (C9_consommer_negatif_flottant Essais.stock_flottant "eau" 100
             (-3)); reflexivity.
  - reflexivity.
Defined.

(** The new quantity is not always greater: rounding can leave it as it
    was, and with infinite quantities it is NaN. *)
Remark consommer_negatif_sans_hausse :
  (1e16 - -1)%float = 1e16%float ∧
  PrimFloat.is_nan (neg_infinity - neg_infinity)%float = true.
Proof. split; reflexivity. Qed.

(** ** Eau, with a float volume *)





(** A positive volume is not enough for the sparkling water to cost
    strictly more: the two costs are equal for the subnormal volume 1e-323,
    whose products round to the same number, and for an infinite volume;
    for a negative volume the sparkling water costs less. *)
Remark cout_gazeuse_non_strict :
  Flottant.lt 0 1e-323 = true ∧
  (1e-323 * 0.5 * 1.2)%float = (1e-323 * 0.5)%float ∧
  (infinity * 0.5 * 1.2)%float = (infinity * 0.5)%float ∧
  Flottant.lt (-1 * 0.5 * 1.2) (-1 * 0.5) = true.
Proof. repeat split; reflexivity. Qed.

(** ** The availability check and the consumption loop, with float
    quantities *)

Lemma verifier_flottant_total (s : Flottant.Stock.t)
    (requis : list Flottant.Ingredient.t) :
  ∃ r, Flottant.Stock.verifier_disponibilite s requis = Retour r.
Proof.
  induction requis as [|i reste IH]; cbn; [by eexists|].
  destruct (Flottant.Stock.ingredients s !! Flottant.Ingredient.nom i)
    as [v|] eqn:E.
  - rewrite (contient_Some _ _ _ E), (element_Some _ _ _ E). cbn.
    destruct (Flottant.lt v (Flottant.Ingredient.quantite i));
      [by eexists | exact IH].
  - rewrite (contient_None _ _ E). cbn. by eexists.
Qed.

Lemma verifier_flottant_vrai (s : Flottant.Stock.t)
    (requis : list Flottant.Ingredient.t) :
  Flottant.Stock.verifier_disponibilite s requis = Retour true ↔
  Forall (λ i, ∃ v,
            Flottant.Stock.ingredients s !! Flottant.Ingredient.nom i =
              Some v ∧
            Flottant.lt v (Flottant.Ingredient.quantite i) = false) requis.
Proof.
  induction requis as [|i reste IH]; cbn.
  - split; [constructor | done].
  - destruct (Flottant.Stock.ingredients s !! Flottant.Ingredient.nom i)
      as [v|] eqn:E.
    + rewrite (contient_Some _ _ _ E), (element_Some _ _ _ E). cbn.
      destruct (Flottant.lt v (Flottant.Ingredient.quantite i)) eqn:L.
      * split; [done|].
        inversion 1 as [|? ? (w & Hw & Hlt)]; subst.
        rewrite E in Hw. injection Hw as <-. congruence.
      * rewrite IH. split.
        -- intros H. constructor; eauto.
        -- by inversion 1.
    + rewrite (contient_None _ _ E). cbn. split; [done|].
      inversion 1 as [|? ? (w & Hw & _)]; subst. congruence.
Qed.

(** X1. [verifier_disponibilite] never raises.  It returns [True]
    exactly when every required ingredient is in stock and the test
    [stock < required] is [False] for it; so a required quantity that is
    NaN passes the check.  It returns [True] on the empty list. *)
Theorem X1_verifier_flottant (s : Flottant.Stock.t)
    (requis : list Flottant.Ingredient.t) :
  ∃ r,
    Flottant.Stock.verifier_disponibilite s requis = Retour r ∧
    (r = true ↔
     Forall (λ i, ∃ v,
               Flottant.Stock.ingredients s !! Flottant.Ingredient.nom i =
                 Some v ∧
               Flottant.lt v (Flottant.Ingredient.quantite i) = false)
            requis) ∧
    (requis = [] → r = true).
Proof.
  destruct (verifier_flottant_total s requis) as [r Hr]. exists r.
  split; [exact Hr|]. split.
  - rewrite <- verifier_flottant_vrai, Hr.
    split; [by intros -> | by intros [= ->]].
  - intros ->. cbn in Hr. by injection Hr as <-.
Qed.

(** [test_verification_disponibilite], and a request of NaN, which
    passes. *)
Example verifier_exemples :
  Flottant.Stock.verifier_disponibilite Essais.stock_flottant
    [Flottant.Ingredient.creer "eau" 50;
     Flottant.Ingredient.creer "minéraux" 20] = Retour true ∧
  Flottant.Stock.verifier_disponibilite Essais.stock_flottant
    [Flottant.Ingredient.creer "eau" 200;
     Flottant.Ingredient.creer "minéraux" 10] = Retour false ∧
  Flottant.Stock.verifier_disponibilite Essais.stock_flottant
    [Flottant.Ingredient.creer "eau" nan] = Retour true.
Proof. repeat split; reflexivity. Qed.

Lemma retraits_cons (nom : string) (i : Flottant.Ingredient.t)
    (reste : list Flottant.Ingredient.t) (v : float) :
  retraits nom (i :: reste) v =
  retraits nom reste
    (if decide (Flottant.Ingredient.nom i = nom)
     then (v - Flottant.Ingredient.quantite i)%float else v).
Proof. reflexivity. Qed.

(** X5. When the consumption loop of [produire_boisson] succeeds, the
    quantity left under each name of the stock is the former one from
    which the quantities required under that name have been subtracted
    one after the other, in the order of the list, each difference being
    rounded; a name that the list does not mention keeps its quantity, no
    name appears or disappears, and the thresholds are kept. *)
Theorem X5_consommation_flottant (s s' : Flottant.Stock.t)
    (l : list Flottant.Ingredient.t) :
  Flottant.Usine.consommer_ingredients s l = Retour (true, s') →
  Flottant.Stock.seuils_alerte s' = Flottant.Stock.seuils_alerte s ∧
  (∀ k, Flottant.Stock.ingredients s' !! k =
        match Flottant.Stock.ingredients s !! k with
        | Some v => Some (retraits k l v)
        | None => None
        end) ∧
  (∀ k v, k ∉ noms_flottants l → retraits k l v = v).
Proof.
  intros H. split; [|split].
  - revert s H. induction l as [|i reste IH]; intros s H; cbn in H.
    + by injection H as <-.
    + destruct (consommer_flottant_total s (Flottant.Ingredient.nom i)
                  (Flottant.Ingredient.quantite i)) as (ok & s1 & Hc).
      rewrite Hc in H. cbn in H. destruct ok; cbn in H; [|discriminate].
      apply consommer_flottant_vrai in Hc as (w & _ & _ & ->).
      by rewrite (IH _ H).
  - revert s H. induction l as [|i reste IH]; intros s H k; cbn in H.
    + injection H as <-. cbn.
      by destruct (Flottant.Stock.ingredients s !! k).
    + destruct (consommer_flottant_total s (Flottant.Ingredient.nom i)
                  (Flottant.Ingredient.quantite i)) as (ok & s1 & Hc).
      rewrite Hc in H. cbn in H. destruct ok; cbn in H; [|discriminate].
      apply consommer_flottant_vrai in Hc as (w & Hw & _ & ->).
      rewrite (IH _ H k). cbn [Flottant.Stock.ingredients].
      destruct (decide (Flottant.Ingredient.nom i = k)) as [<-|Hne].
      * rewrite lookup_insert_eq, Hw, retraits_cons.
        by rewrite decide_True.
      * rewrite lookup_insert_ne by done.
        destruct (Flottant.Stock.ingredients s !! k) as [v|]; [|done].
        rewrite retraits_cons. by rewrite decide_False.
  - clear H. intros k v. revert v.
    induction l as [|i reste IH]; intros v Hk; [done|].
    unfold noms_flottants in Hk. cbn in Hk.
    apply not_elem_of_cons in Hk as [Hne Hk].
    rewrite retraits_cons, decide_False by done. by apply IH.
Qed.

(** Two requests of 0.8 against 14.3 leave (14.3 - 0.8) - 0.8, which is
    12.7 and differs from 14.3 - (0.8 + 0.8). *)
Lemma X5_temoin :
  ∃ s',
    Flottant.Usine.consommer_ingredients
      {| Flottant.Stock.ingredients := {[ "eau" := 14.3%float ]};
         Flottant.Stock.seuils_alerte := ∅ |}
      [Flottant.Ingredient.creer "eau" 0.8;
       Flottant.Ingredient.creer "eau" 0.8] = Retour (true, s') ∧
    Flottant.Stock.ingredients s' !! "eau" = Some 12.7%float ∧
    (14.3 - (0.8 + 0.8))%float ≠ 12.7%float.
Proof.
  eexists.
  assert (Flottant.Usine.consommer_ingredients
            {| Flottant.Stock.ingredients := {[ "eau" := 14.3%float ]};
               Flottant.Stock.seuils_alerte := ∅ |}
            [Flottant.Ingredient.creer "eau" 0.8;
             Flottant.Ingredient.creer "eau" 0.8] = Retour (true, _)) as H
    by (vm_compute; reflexivity).
  destruct (X5_consommation_flottant _ _ _ H) as (_ & Hk & _).
  split; [exact H|]. split.
  - rewrite (Hk "eau"). vm_compute. reflexivity.
  - intros E. vm_compute in E. discriminate.
Defined.

(** X9. A passed availability check guarantees that the consumption
    loop succeeds when the names of the ingredients are pairwise distinct
    and neither a required quantity nor the quantity stored under a
    required name is NaN. *)
Theorem X9_controle_suffisant (s : Flottant.Stock.t)
    (l : list Flottant.Ingredient.t) :
  NoDup (noms_flottants l) →
  Forall (λ i, PrimFloat.is_nan (Flottant.Ingredient.quantite i) = false ∧
               ∀ v, Flottant.Stock.ingredients s !!
                      Flottant.Ingredient.nom i = Some v →
                    PrimFloat.is_nan v = false) l →
  Flottant.Stock.verifier_disponibilite s l = Retour true →
  ∃ s', Flottant.Usine.consommer_ingredients s l = Retour (true, s').
Proof.
  revert s. induction l as [|i reste IH]; intros s Hnd Hnan Hv; cbn;
    [by eexists|].
  apply verifier_flottant_vrai in Hv.
  inversion Hv as [|? ? (v & Hi & Hlt) Hreste]; subst.
  inversion Hnan as [|? ? [Hq Hs] Hnan']; subst.
  unfold noms_flottants in Hnd. cbn in Hnd.
  apply NoDup_cons in Hnd as [Hfrais Hnd].
  assert (Flottant.ge v (Flottant.Ingredient.quantite i) = true) as Hge
    by (apply non_lt_donne_ge; [by apply Hs | done | done]).
  rewrite (consommer_flottant_accepte _ _ _ v Hi Hge). cbn.
  assert (∀ j, j ∈ reste → Flottant.Ingredient.nom i ≠
                            Flottant.Ingredient.nom j) as Hautre.
  { intros j Hj Heq. apply Hfrais. rewrite Heq.
    apply list_elem_of_fmap. by exists j. }
  apply IH; [done| |].
  - rewrite Forall_forall in Hnan'. apply Forall_forall. intros j Hj.
    destruct (Hnan' j Hj) as [Hqj Hsj]. split; [done|].
    intros w. cbn. rewrite lookup_insert_ne by (by apply Hautre).
    apply Hsj.
  - apply verifier_flottant_vrai. rewrite Forall_forall in Hreste.
    apply Forall_forall. intros j Hj.
    destruct (Hreste j Hj) as (w & Hw & Hltw). exists w. split; [|done].
    cbn. rewrite lookup_insert_ne by (by apply Hautre). done.
Qed.

Lemma X9_temoin :
  ∃ s', Flottant.Usine.consommer_ingredients Essais.stock_flottant
          [Flottant.Ingredient.creer "eau" 10;
           Flottant.Ingredient.creer "minéraux" 5] = Retour (true, s').
Proof.
  apply X9_controle_suffisant.
  - repeat constructor; set_solver.
  - repeat constructor; cbn;
      intros v Hv; vm_compute in Hv; injection Hv as <-; reflexivity.
  - reflexivity.
Defined.

(** With a NaN the check and the loop disagree, even for distinct names:
    the check passes, the loop consumes the first ingredient and refuses
    the second. *)
Remark controle_et_nan :
  Flottant.Stock.verifier_disponibilite Essais.stock_flottant
    [Flottant.Ingredient.creer "minéraux" 5;
     Flottant.Ingredient.creer "eau" nan] = Retour true ∧
  ∃ s', Flottant.Usine.consommer_ingredients Essais.stock_flottant
          [Flottant.Ingredient.creer "minéraux" 5;
           Flottant.Ingredient.creer "eau" nan] = Retour (false, s') ∧
        Flottant.Stock.ingredients s' !! "minéraux" = Some 45%float.
Proof.
  split; [reflexivity|]. eexists. split; [vm_compute; reflexivity|].
  reflexivity.
Qed.

(** * Usine: what a call leaves behind *)

(** A consumption loop that stops did consume the ingredients listed
    before the one it refused. *)
Lemma consommer_ingredients_arret (s s' : Stock.t) (l : list Ingredient.t) :
  Usine.consommer_ingredients s l = Retour (false, s') →
  ∃ pris refuse reste,
    l = (pris ++ refuse :: reste)%list ∧
    Usine.consommer_ingredients s pris = Retour (true, s') ∧
    Stock.consommer_ingredient s' (Ingredient.nom refuse)
      (Ingredient.quantite refuse) = Retour (false, s').
Proof.
  revert s. induction l as [|i reste IH]; intros s H; cbn in H;
    [discriminate|].
  destruct (consommer_total s (Ingredient.nom i) (Ingredient.quantite i))
    as (ok & s1 & Hc). rewrite Hc in H. cbn in H. destruct ok; cbn in H.
  - destruct (IH _ H) as (pris & refuse & reste' & -> & Hp & Hr).
    exists (i :: pris), refuse, reste'. split; [done|]. split; [|done].
    cbn. rewrite Hc. cbn. exact Hp.
  - injection H as <-. pose proof (consommer_faux _ _ _ _ Hc) as ->.
    exists [], i, reste. by repeat split.
Qed.

(** X10. The consumption is not undone.  When the availability check
    passes and a line is idle but the consumption loop stops on an
    ingredient, [produire_boisson] returns [False], leaves lines, daily
    output, beverage and clock untouched, and keeps the stock in which the
    ingredients listed before the refused one are consumed. *)
Theorem X10_consommation_partielle (u : Usine.t) (b : Boisson.t)
    (h : Horloge) i l s' :
  Stock.verifier_disponibilite (Usine.stock u) (Boisson.ingredients b) =
    Retour true →
  Usine.ligne_disponible (Usine.lignes_production u) = Some (i, l) →
  Usine.consommer_ingredients (Usine.stock u) (Boisson.ingredients b) =
    Retour (false, s') →
  Usine.produire_boisson u b h = Retour (false, Usine.avec_stock u s', b, h) ∧
  ∃ pris refuse reste,
    Boisson.ingredients b = (pris ++ refuse :: reste)%list ∧
    Usine.consommer_ingredients (Usine.stock u) pris = Retour (true, s') ∧
    Stock.consommer_ingredient s' (Ingredient.nom refuse)
      (Ingredient.quantite refuse) = Retour (false, s').
Proof.
  intros Hv Hl Hc. split; [by apply (produire_consommation_echoue _ _ _ i l)|].
  by apply consommer_ingredients_arret.
Qed.

(** The water that asks twice for 60 of "eau" passes the check against a
    stock of 100; the first 60 are consumed and stay consumed. *)
Lemma X10_temoin :
  ∃ s',
    Usine.produire_boisson Essais.usine Essais.eau_double Essais.horloge =
      Retour (false, Usine.avec_stock Essais.usine s', Essais.eau_double,
              Essais.horloge) ∧
    Stock.ingredients s' !! "eau" = Some 40%Q.
Proof.
  eexists.
  assert (Usine.consommer_ingredients (Usine.stock Essais.usine)
            (Boisson.ingredients Essais.eau_double) = Retour (false, _)) as Hc
    by (vm_compute; reflexivity).
  destruct (X10_consommation_partielle Essais.usine Essais.eau_double
              Essais.horloge 0%nat Essais.ligne _ eq_refl eq_refl Hc)
    as [Hp _].
  split; [exact Hp | reflexivity].
Defined.

(** X11. A production that succeeds, in any design.  The line used is the
    first idle line in the order of the list; the line found at its
    position afterwards is idle, holds no beverage, and its history has
    one more record, with the name and volume of the beverage, its lot,
    and the first and fourth readings of the clock as start and end.  The
    beverage receives the lot made of the name of the line and the second
    reading, and the third reading as production date; it is the last
    element of the daily output, which is one longer.  The clock is read
    four times. *)
Theorem X11_production_reussie (u u' : Usine.t) (b b' : Boisson.t)
    (h h' : Horloge) :
  Usine.produire_boisson u b h = Retour (true, u', b', h') →
  ∃ i l l',
    Usine.lignes_production u !! i = Some l ∧
    LigneProduction.est_active l = false ∧
    (∀ j l0, Usine.lignes_production u !! j = Some l0 → (j < i)%nat →
             LigneProduction.est_active l0 = true) ∧
    Usine.lignes_production u' !! i = Some l' ∧
    length (Usine.lignes_production u') =
      length (Usine.lignes_production u) ∧
    LigneProduction.est_active l' = false ∧
    LigneProduction.production_actuelle l' = None ∧
    LigneProduction.historique_production l' =
      (LigneProduction.historique_production l ++
       [ {| LigneProduction.boisson := Boisson.nom b;
            LigneProduction.lot := Boisson.numero_lot b';
            LigneProduction.debut := Some (h 0%nat);
            LigneProduction.fin := h 3%nat;
            LigneProduction.volume := Boisson.volume b |} ])%list ∧
    Boisson.numero_lot b' =
      Some (LigneProduction.nom l +:+ "-" +:+
            datetime.strftime_AmjHMS (h 1%nat)) ∧
    Boisson.date_production b' = Some (h 2%nat) ∧
    last (Usine.production_journaliere u') = Some b' ∧
    length (Usine.production_journaliere u') =
      S (length (Usine.production_journaliere u)) ∧
    h' = (λ n, h (S (S (S (S n))))).
Proof.
  intros Hp.
  destruct (verifier_total (Usine.stock u) (Boisson.ingredients b))
    as [[] Hv];
    [|rewrite (produire_indisponible _ _ _ Hv) in Hp; discriminate].
  destruct (Usine.ligne_disponible (Usine.lignes_production u))
    as [[i l]|] eqn:Hl;
    [|rewrite (produire_sans_ligne _ _ _ Hl) in Hp; discriminate].
  destruct (consommer_ingredients_total (Usine.stock u)
              (Boisson.ingredients b)) as ([] & s' & Hc);
    [|rewrite (produire_consommation_echoue _ _ _ i l s' Hv Hl Hc) in Hp;
      discriminate].
  rewrite (produire_detail u b h i l s' Hv Hl Hc) in Hp.
  destruct (ProcessusProduction.executer_processus _ _); [|discriminate].
  injection Hp as <- <- <-.
  unfold Usine.ligne_disponible in Hl.
  apply list_find_Some in Hl as (Hi & Hidle & Hmin).
  eexists i, l, _. split; [exact Hi|]. split; [exact Hidle|].
  split.
  { intros j l0 Hj Hlt.
    destruct (LigneProduction.est_active l0) eqn:E; [done|].
    by destruct (Hmin j l0 Hj Hlt). }
  cbn [Usine.lignes_production Usine.production_journaliere].
  split; [apply list_lookup_insert_eq; by eapply lookup_lt_Some|].
  split; [apply length_insert|].
  rewrite last_snoc, length_app. cbn.
  repeat (split; [reflexivity|]). split; [lia | reflexivity].
Qed.

Lemma X11_temoin :
  ∃ u' b' h',
    Usine.produire_boisson Essais.usine Essais.eau Essais.horloge =
      Retour (true, u', b', h') ∧
    Boisson.numero_lot b' = Some "Ligne Test-20240115083001" ∧
    last (Usine.production_journaliere u') = Some b'.
Proof.
  eexists _, _, _.
  assert (Usine.produire_boisson Essais.usine Essais.eau Essais.horloge =
            Retour (true, _, _, _)) as Hp by (vm_compute; reflexivity).
  destruct (X11_production_reussie _ _ _ _ _ _ Hp)
    as (i & l & l' & _ & _ & _ & _ & _ & _ & _ & _ & _ & _ & Hpj & _).
  split; [exact Hp|]. split; [vm_compute; reflexivity | exact Hpj].
Defined.

(** X12. What [produire_boisson] never touches, whatever it returns: the
    name and the targets of the factory, the number of lines and the
    name, capacity and process of the line at each position, the alert
    thresholds and the set of names in stock, and the name, volume,
    ingredients and class of the beverage.  The daily output is one
    longer, with the beverage last, exactly when the call returns [True];
    otherwise it keeps its length. *)
Theorem X12_cadre (u : Usine.t) (b : Boisson.t) (h : Horloge) :
  ∃ r u' b' h',
    Usine.produire_boisson u b h = Retour (r, u', b', h') ∧
    Usine.nom u' = Usine.nom u ∧
    Usine.objectifs_production u' = Usine.objectifs_production u ∧
    Forall2 (λ l l', LigneProduction.nom l' = LigneProduction.nom l ∧
                     LigneProduction.capacite_horaire l' =
                       LigneProduction.capacite_horaire l ∧
                     LigneProduction.processus l' =
                       LigneProduction.processus l)
            (Usine.lignes_production u) (Usine.lignes_production u') ∧
    Stock.seuils_alerte (Usine.stock u') =
      Stock.seuils_alerte (Usine.stock u) ∧
    dom (Stock.ingredients (Usine.stock u')) =
      dom (Stock.ingredients (Usine.stock u)) ∧
    Boisson.nom b' = Boisson.nom b ∧
    Boisson.volume b' = Boisson.volume b ∧
    Boisson.ingredients b' = Boisson.ingredients b ∧
    Boisson.sorte b' = Boisson.sorte b ∧
    length (Usine.production_journaliere u') =
      (if r then S (length (Usine.production_journaliere u))
       else length (Usine.production_journaliere u)) ∧
    (r = true → last (Usine.production_journaliere u') = Some b').
Proof.
  assert (∀ l : list LigneProduction.t,
            Forall2 (λ l l', LigneProduction.nom l' = LigneProduction.nom l ∧
                             LigneProduction.capacite_horaire l' =
                               LigneProduction.capacite_horaire l ∧
                             LigneProduction.processus l' =
                               LigneProduction.processus l) l l) as Hrefl.
  { intros l. apply Forall_Forall2_diag. by apply Forall_forall. }
  destruct (verifier_total (Usine.stock u) (Boisson.ingredients b))
    as [[] Hv];
    [|rewrite (produire_indisponible _ _ _ Hv);
      eexists _, _, _, _; split; [done|]; by repeat split].
  destruct (Usine.ligne_disponible (Usine.lignes_production u))
    as [[i l]|] eqn:Hl;
    [|rewrite (produire_sans_ligne _ _ _ Hl);
      eexists _, _, _, _; split; [done|]; by repeat split].
  destruct (consommer_ingredients_total (Usine.stock u)
              (Boisson.ingredients b)) as (ok & s' & Hc).
  pose proof (consommer_ingredients_seuils _ _ _ _ Hc) as [Hs Hd].
  destruct ok.
  - rewrite (produire_detail u b h i l s' Hv Hl Hc).
    apply ligne_disponible_Some in Hl as [Hi _].
    destruct (ProcessusProduction.executer_processus _ _);
      eexists _, _, _, _; (split; [done|]);
      cbn [Usine.nom Usine.objectifs_production Usine.lignes_production
           Usine.stock Usine.production_journaliere Boisson.nom
           Boisson.volume Boisson.ingredients Boisson.sorte];
      rewrite ?last_snoc, ?length_app; cbn [length];
      repeat (split; [done|]);
      (split;
       [ apply Forall2_lookup; intros j;
         destruct (decide (i = j)) as [<-|Hne];
         [ rewrite list_lookup_insert_eq by (by eapply lookup_lt_Some);
           rewrite Hi; by constructor
         | rewrite list_lookup_insert_ne by done;
           destruct (Usine.lignes_production u !! j); by constructor ]
       | repeat split; try done; lia ]).
  - rewrite (produire_consommation_echoue _ _ _ i l s' Hv Hl Hc).
    eexists _, _, _, _. split; [done|]. cbn. by repeat split.
Qed.
